(** * BME280 & DS18B20 logger: the acquisition loop, the chart histories and
      the file logger of [src_python/main.py], embedded in Rocq.

    Python's [float] is IEEE 754 binary64, which is what Rocq's primitive
    floats are, so every reading is a [float] and the two unit conversions
    are the hardware divisions the interpreter performs.  Module-level
    globals ([state], [window], [file_logger], [qdev_ard], [ard],
    [timer_chart]) become the fields of one [Program] record that every
    function threads through; an uncaught Python exception is [None].
    What the program prints on the terminal ([print], [dprint], [pft]) is
    left out, and a signal runs its slots at once, in the order they were
    connected. *)

From Stdlib Require Import ZArith String Ascii List Bool Lia.
From Stdlib Require Import PrimFloat FloatOps SpecFloat.
From stdpp Require Import base option list strings gmap pretty.

Set Warnings "-inexact-float".
Local Open Scope string_scope.

(** ** The Python builtins the program relies on *)

Module Py.

Definition TAB : string := String "009"%char EmptyString.
Definition LF : string := String "010"%char EmptyString.

(** [num / den] rounded to the nearest integer, ties to the even one
    ([den] positive). *)
Definition round_half_even (num den : Z) : Z :=
  let q := (num / den)%Z in
  let r := (num mod den)%Z in
  if (2 * r <? den)%Z then q
  else if (den <? 2 * r)%Z then (q + 1)%Z
  else if Z.even q then q else (q + 1)%Z.

(** The exact value [m * 2^e] scaled by [10^p] and rounded to an integer. *)
Definition scaled_round (p : nat) (m : positive) (e : Z) : Z :=
  let n := (Z.pos m * 10 ^ Z.of_nat p)%Z in
  if (0 <=? e)%Z then (n * 2 ^ e)%Z else round_half_even n (2 ^ (- e)).

(** [round(x)] with one argument: an [int], or an exception on nan and
    the infinities. *)
Definition round (x : float) : option Z :=
  match Prim2SF x with
  | S754_zero _ => Some 0%Z
  | S754_finite s m e =>
      let n := scaled_round 0 m e in Some (if s then (- n)%Z else n)
  | S754_infinity _ | S754_nan => None
  end.

Fixpoint zeros (n : nat) : string :=
  match n with
  | O => EmptyString
  | S n' => String "0"%char (zeros n')
  end.

(** The digits of [n / 10^p] with exactly [p] decimals. *)
Definition fixed_digits (p : nat) (n : Z) : string :=
  let d := pretty (Z.to_N n) in
  let d := zeros (S p - String.length d) +:+ d in
  let k := (String.length d - p)%nat in
  match p with
  | O => d
  | S _ => String.substring 0 k d +:+ "." +:+ String.substring k p d
  end.

Definition sign (s : bool) : string := if s then "-" else "".

(** ["%.<p>f" % x] *)
Definition format_f (p : nat) (x : float) : string :=
  match Prim2SF x with
  | S754_nan => "nan"
  | S754_infinity s => sign s +:+ "inf"
  | S754_zero s => sign s +:+ fixed_digits p 0
  | S754_finite s m e => sign s +:+ fixed_digits p (scaled_round p m e)
  end.

(** [float(n)] for an [int] below [2^53] in magnitude, where the
    conversion is exact. *)
Definition float_of_int (n : Z) : float :=
  match n with
  | Z0 => zero
  | Zpos p => SF2Prim (S754_finite false p 0)
  | Zneg p => SF2Prim (S754_finite true p 0)
  end.

(** ["%i" % n] *)
Definition format_i (n : Z) : string := pretty n.

End Py.

(** ** Constants *)

Definition DAQ_INTERVAL_MS : Z := 1000.   (* [ms] *)
Definition CHART_INTERVAL_MS : Z := 500.   (* [ms] *)
Definition CHART_HISTORY_TIME : Z := 60.   (* [s] *)

(** ** Arduino state *)

Record State : Type := mkState {
  time : float;      (* [s] *)
  ds_temp : float;   (* ['C] *)
  bme_temp : float;  (* ['C] *)
  bme_humi : float;  (* [%] *)
  bme_pres : float   (* [bar] *)
}.

Definition State_init : State := mkState nan nan nan nan nan.


(** ** The device link *)

(** One field of the line the Arduino sends back. *)
Inductive Token : Type :=
  | Numeric (x : float)
  | NonNumeric (s : string).

(** What the serial link yields for one query: whether a line came back
    and the delimited fields of that line. *)
Record Reply : Type := mkReply {
  link_success : bool;
  tokens : list Token
}.

Record Arduino : Type := mkArduino {
  ard_name : string;
  is_alive : bool;
  sent : list string   (* every command written to the device, oldest first *)
}.

Fixpoint floats_of_tokens (ts : list Token) : option (list float) :=
  match ts with
  | [] => Some []
  | Numeric x :: ts' =>
      match floats_of_tokens ts' with
      | Some xs => Some (x :: xs)
      | None => None
      end
  | NonNumeric _ :: _ => None
  end.

(** Modelled from the spec: [Arduino.query_ascii_values] of the device link,
    which is not part of this source tree.  It sends the command and
    returns [(success, fields)] where the fields are floats; a link that
    reports no success, or a line holding a value that does not parse, is
    reported as no success. *)
Definition query_ascii_values (cmd : string) (r : Reply) (a : Arduino)
  : bool * list float * Arduino :=
  let a' := mkArduino (ard_name a) (is_alive a) (sent a ++ [cmd])%list in
  if link_success r then
    match floats_of_tokens (tokens r) with
    | Some xs => (true, xs, a')
    | None => (false, [], a')
    end
  else (false, [], a').

(** Modelled from the spec: [Arduino.close], absent from this source tree;
    it releases the device link. *)
Definition ard_close (a : Arduino) : Arduino :=
  mkArduino (ard_name a) false (sent a).

(** ** Chart histories *)

(** Modelled from the spec: the [HistoryChartCurve] of the charting library,
    which is not part of this source tree: a fixed-capacity ordered
    sequence of (time, value) pairs, oldest first, whose oldest samples are
    evicted once the capacity is exceeded. *)
Record HistoryChartCurve : Type := mkCurve {
  capacity : nat;
  samples : list (float * float)
}.

(** Modelled from the spec: [addThreadSafeCurve("HistoryChartCurve",
    capacity=...)] of the charting library: a new, empty curve. *)
Definition addThreadSafeCurve (cap : nat) : HistoryChartCurve :=
  mkCurve cap [].

(** Modelled from the spec: [HistoryChartCurve.add_new_reading]: the sample
    goes to the end and the oldest ones beyond the capacity are dropped. *)
Definition add_new_reading (x y : float) (c : HistoryChartCurve)
  : HistoryChartCurve :=
  let s := (samples c ++ [(x, y)])%list in
  mkCurve (capacity c) (drop (length s - capacity c) s).

(** Modelled from the spec: clearing one curve empties it. *)
Definition clear_curve (c : HistoryChartCurve) : HistoryChartCurve :=
  mkCurve (capacity c) [].

(** [num_samples = round(CHART_HISTORY_TIME * 1e3 / DAQ_INTERVAL_MS)] *)
Definition num_samples_py : option Z :=
  Py.round (Py.float_of_int CHART_HISTORY_TIME * 1e3
            / Py.float_of_int DAQ_INTERVAL_MS)%float.

(** The capacity handed to the four curves ([round] cannot raise on these
    constants). *)
Definition num_samples : nat :=
  match num_samples_py with
  | Some n => Z.to_nat n
  | None => 0
  end.

(** ** MainWindow *)

Record MainWindow : Type := mkWindow {
  qlbl_update_counter : string;
  qlbl_DAQ_rate : string;
  qlbl_title : string;
  qlbl_cur_date_time : string;
  qpbt_record_text : string;
  qpbt_record_checked : bool;
  tscurve_ds_temp : HistoryChartCurve;
  tscurve_bme_temp : HistoryChartCurve;
  tscurve_bme_humi : HistoryChartCurve;
  tscurve_bme_pres : HistoryChartCurve;
  tsgwin_drawn : list (list (float * float));  (* what the plots show *)
  qlin_reading_time : string;
  qlin_reading_ds_temp : string;
  qlin_reading_bme_temp : string;
  qlin_reading_bme_humi : string;
  qlin_reading_bme_pres : string
}.

Definition MainWindow_init : MainWindow :=
  mkWindow "0" "DAQ: 0 Hz" "Uber-Monitor" "00-00-0000    00:00:00"
    "Click to start recording to file" false
    (addThreadSafeCurve num_samples) (addThreadSafeCurve num_samples)
    (addThreadSafeCurve num_samples) (addThreadSafeCurve num_samples)
    [] "" "" "" "" "".

(** The four curves of a window, in the order they were added. *)
Definition curves (w : MainWindow) : list HistoryChartCurve :=
  [tscurve_ds_temp w; tscurve_bme_temp w; tscurve_bme_humi w;
   tscurve_bme_pres w].

(** The numeric readouts and status labels that [update_GUI] writes. *)
Definition readouts (w : MainWindow) : list string :=
  [qlbl_cur_date_time w; qlbl_update_counter w; qlbl_DAQ_rate w;
   qlin_reading_time w; qlin_reading_ds_temp w; qlin_reading_bme_temp w;
   qlin_reading_bme_humi w; qlin_reading_bme_pres w].

Definition set_curves (a b c d : HistoryChartCurve) (w : MainWindow)
  : MainWindow :=
  mkWindow (qlbl_update_counter w) (qlbl_DAQ_rate w) (qlbl_title w)
    (qlbl_cur_date_time w) (qpbt_record_text w) (qpbt_record_checked w)
    a b c d (tsgwin_drawn w)
    (qlin_reading_time w) (qlin_reading_ds_temp w) (qlin_reading_bme_temp w)
    (qlin_reading_bme_humi w) (qlin_reading_bme_pres w).

Definition set_drawn (dr : list (list (float * float))) (w : MainWindow)
  : MainWindow :=
  mkWindow (qlbl_update_counter w) (qlbl_DAQ_rate w) (qlbl_title w)
    (qlbl_cur_date_time w) (qpbt_record_text w) (qpbt_record_checked w)
    (tscurve_ds_temp w) (tscurve_bme_temp w) (tscurve_bme_humi w)
    (tscurve_bme_pres w) dr
    (qlin_reading_time w) (qlin_reading_ds_temp w) (qlin_reading_bme_temp w)
    (qlin_reading_bme_humi w) (qlin_reading_bme_pres w).

Definition set_title (t : string) (w : MainWindow) : MainWindow :=
  mkWindow (qlbl_update_counter w) (qlbl_DAQ_rate w) t
    (qlbl_cur_date_time w) (qpbt_record_text w) (qpbt_record_checked w)
    (tscurve_ds_temp w) (tscurve_bme_temp w) (tscurve_bme_humi w)
    (tscurve_bme_pres w) (tsgwin_drawn w)
    (qlin_reading_time w) (qlin_reading_ds_temp w) (qlin_reading_bme_temp w)
    (qlin_reading_bme_humi w) (qlin_reading_bme_pres w).

Definition set_record_button (t : string) (checked : bool) (w : MainWindow)
  : MainWindow :=
  mkWindow (qlbl_update_counter w) (qlbl_DAQ_rate w) (qlbl_title w)
    (qlbl_cur_date_time w) t checked
    (tscurve_ds_temp w) (tscurve_bme_temp w) (tscurve_bme_humi w)
    (tscurve_bme_pres w) (tsgwin_drawn w)
    (qlin_reading_time w) (qlin_reading_ds_temp w) (qlin_reading_bme_temp w)
    (qlin_reading_bme_humi w) (qlin_reading_bme_pres w).

Definition set_readouts (dt uc rate t a b c d : string) (w : MainWindow)
  : MainWindow :=
  mkWindow uc rate (qlbl_title w) dt
    (qpbt_record_text w) (qpbt_record_checked w)
    (tscurve_ds_temp w) (tscurve_bme_temp w) (tscurve_bme_humi w)
    (tscurve_bme_pres w) (tsgwin_drawn w) t a b c d.

(** Modelled from the spec: [ThreadSafeGraphicsWindow.clear_curves] of the
    charting library, absent from this source tree; it empties every curve
    that was added to the graphics window. *)
Definition tsgwin_clear_curves (w : MainWindow) : MainWindow :=
  set_curves (clear_curve (tscurve_ds_temp w)) (clear_curve (tscurve_bme_temp w))
    (clear_curve (tscurve_bme_humi w)) (clear_curve (tscurve_bme_pres w)) w.

(** Modelled from the spec: [ThreadSafeGraphicsWindow.update_curves], absent
    from this source tree; it redraws the plots from the latest contents of
    the curves and does not change the curves. *)
Definition tsgwin_update_curves (w : MainWindow) : MainWindow :=
  set_drawn (map samples (curves w)) w.

(** ** Files *)

Inductive FileOp : Type :=
  | op_open (fn mode : string)
  | op_write (fn data : string)
  | op_close (fn : string).

(** The directory the program runs in: the text of every file, and every
    file operation performed so far, oldest first. *)
Record Disk : Type := mkDisk {
  files : gmap string string;
  ops : list FileOp
}.

(** [open(fn, mode)]: mode ["w"] creates or truncates, any other mode used
    here (["a"]) creates the file when it is missing. *)
Definition py_open (fn mode : string) (d : Disk) : Disk :=
  let old := default "" (files d !! fn) in
  let txt := if String.eqb mode "w" then "" else old in
  mkDisk (<[fn := txt]> (files d)) (ops d ++ [op_open fn mode])%list.

Definition py_write (fn data : string) (d : Disk) : Disk :=
  let old := default "" (files d !! fn) in
  mkDisk (<[fn := old +:+ data]> (files d)) (ops d ++ [op_write fn data])%list.

Definition py_close (fn : string) (d : Disk) : Disk :=
  mkDisk (files d) (ops d ++ [op_close fn])%list.

(** ** The file logger *)

(** Modelled from the spec: the [FileLogger] class of [DvG_pyqt_FileLogger],
    which is not part of this source tree.  A log session owns the output
    file handle (named here by the file it is open on), the session start
    time, a [is_recording] flag and the two latch flags [starting] and
    [stopping]. *)
Record FileLogger : Type := mkLogger {
  starting : bool;
  stopping : bool;
  is_recording : bool;
  start_time : float;
  f_log : option string
}.

Definition FileLogger_init : FileLogger := mkLogger false false false nan None.

(** Modelled from the spec: [FileLogger.create_log].  When idle it creates
    the output file, records the session start time, enters the recording
    state and clears [starting]; it answers whether a file was created.  A
    start while already recording is absorbed: the latch is cleared and
    nothing else happens. *)
Definition create_log (t0 : float) (fn mode : string) (l : FileLogger) (d : Disk)
  : bool * FileLogger * Disk :=
  if is_recording l then
    (false, mkLogger false (stopping l) true (start_time l) (f_log l), d)
  else
    (true, mkLogger false (stopping l) true t0 (Some fn), py_open fn mode d).

(** Modelled from the spec: [FileLogger.write]: appends the text to the open
    file; writing through a handle that does not exist raises. *)
Definition logger_write (data : string) (l : FileLogger) (d : Disk)
  : option Disk :=
  match f_log l with
  | Some fn => Some (py_write fn data d)
  | None => None
  end.

(** Modelled from the spec: [FileLogger.close_log].  When recording it closes
    the file handle, returns to idle and clears [stopping]; when idle it
    only clears the latch and touches no file. *)
Definition close_log (l : FileLogger) (d : Disk) : option (FileLogger * Disk) :=
  if is_recording l then
    match f_log l with
    | Some fn =>
        Some (mkLogger (starting l) false false (start_time l) None,
              py_close fn d)
    | None => None
    end
  else Some (mkLogger (starting l) false false (start_time l) (f_log l), d).

(** ** The acquisition worker *)

(** Modelled from the spec: the [QDeviceIO] acquisition worker, which is not
    part of this source tree: its counters, the tally of consecutive failed
    polls with its threshold, and whether it is still polling. *)
Record QDeviceIO : Type := mkQDev {
  update_counter_DAQ : Z;
  obtained_DAQ_rate_Hz : float;
  not_alive_counter_DAQ : nat;
  critical_not_alive_count : nat;
  DAQ_running : bool
}.

(** ** Signals and slots *)

Inductive Signal : Type :=
  | signal_DAQ_updated
  | signal_connection_lost
  | signal_set_recording_text
  | timer_chart_timeout
  | app_aboutToQuit
  | qpbt_record_clicked
  | qpbt_clear_chart_clicked.

Inductive Slot : Type :=
  | slot_update_GUI
  | slot_update_chart
  | slot_notify_connection_lost
  | slot_about_to_quit
  | slot_process_qpbt_record
  | slot_process_qpbt_clear_chart
  | slot_set_text_qpbt_record.

Definition Signal_eqb (a b : Signal) : bool :=
  match a, b with
  | signal_DAQ_updated, signal_DAQ_updated
  | signal_connection_lost, signal_connection_lost
  | signal_set_recording_text, signal_set_recording_text
  | timer_chart_timeout, timer_chart_timeout
  | app_aboutToQuit, app_aboutToQuit
  | qpbt_record_clicked, qpbt_record_clicked
  | qpbt_clear_chart_clicked, qpbt_clear_chart_clicked => true
  | _, _ => false
  end.

(** Every [connect] call of the program: the slots run by each signal. *)
Definition connections (s : Signal) : list Slot :=
  match s with
  | qpbt_record_clicked => [slot_process_qpbt_record]
  | qpbt_clear_chart_clicked => [slot_process_qpbt_clear_chart]
  | app_aboutToQuit => [slot_about_to_quit]
  | signal_set_recording_text => [slot_set_text_qpbt_record]
  | signal_DAQ_updated => [slot_update_GUI]
  | signal_connection_lost => [slot_notify_connection_lost]
  | timer_chart_timeout => [slot_update_chart]
  end.

(** ** The running program *)

Record Program : Type := mkProgram {
  state : State;
  window : MainWindow;
  file_logger : FileLogger;
  qdev_ard : QDeviceIO;
  ard : Arduino;
  timer_chart_active : bool;
  disk : Disk;
  emitted : list Signal   (* every signal emitted so far, oldest first *)
}.

Definition set_state (s : State) (p : Program) : Program :=
  mkProgram s (window p) (file_logger p) (qdev_ard p) (ard p)
    (timer_chart_active p) (disk p) (emitted p).

Definition set_window (w : MainWindow) (p : Program) : Program :=
  mkProgram (state p) w (file_logger p) (qdev_ard p) (ard p)
    (timer_chart_active p) (disk p) (emitted p).

Definition set_logger (l : FileLogger) (d : Disk) (p : Program) : Program :=
  mkProgram (state p) (window p) l (qdev_ard p) (ard p)
    (timer_chart_active p) d (emitted p).

Definition set_qdev (q : QDeviceIO) (p : Program) : Program :=
  mkProgram (state p) (window p) (file_logger p) q (ard p)
    (timer_chart_active p) (disk p) (emitted p).

Definition set_ard (a : Arduino) (p : Program) : Program :=
  mkProgram (state p) (window p) (file_logger p) (qdev_ard p) a
    (timer_chart_active p) (disk p) (emitted p).

Definition set_timer_chart (b : bool) (p : Program) : Program :=
  mkProgram (state p) (window p) (file_logger p) (qdev_ard p) (ard p)
    b (disk p) (emitted p).

Definition log_emit (s : Signal) (p : Program) : Program :=
  mkProgram (state p) (window p) (file_logger p) (qdev_ard p) (ard p)
    (timer_chart_active p) (disk p) (emitted p ++ [s])%list.

(** ** What the surroundings supply to one callback *)

(** [QDateTime.currentDateTime()] rendered in the three notations used. *)
Record QDateTime : Type := mkDateTime {
  dd_MM_yyyy : string;
  HH_mm_ss : string;
  yyMMdd_HHmmss : string
}.

Inductive StandardButton : Type := Yes | No | Ok.

Record Env : Type := mkEnv {
  currentDateTime : QDateTime;
  perf_counter : float;        (* [time.perf_counter()] *)
  serial_reply : Reply;        (* what the device answers to a query *)
  msgbox_reply : StandardButton;  (* the button pressed in a dialog *)
  measured_rate : float        (* the rate the worker measures *)
}.

Definition get_current_date_time (e : Env) : string * string * string :=
  let cur_date_time := currentDateTime e in
  (dd_MM_yyyy cur_date_time, HH_mm_ss cur_date_time,
   yyMMdd_HHmmss cur_date_time).

(** ** Handle controls *)

Definition process_qpbt_clear_chart (e : Env) (p : Program) : Program :=
  let reply := msgbox_reply e in
  match reply with
  | Yes => set_window (tsgwin_clear_curves (window p)) p
  | _ => p
  end.

Definition process_qpbt_record (p : Program) : Program :=
  let l := file_logger p in
  if qpbt_record_checked (window p) then
    set_logger (mkLogger true (stopping l) (is_recording l) (start_time l)
                  (f_log l)) (disk p) p
  else
    set_logger (mkLogger (starting l) true (is_recording l) (start_time l)
                  (f_log l)) (disk p) p.

Definition set_text_qpbt_record (text_str : string) (p : Program) : Program :=
  let w := window p in
  set_window (set_record_button text_str (qpbt_record_checked w) w) p.

(** ** update_GUI *)

Definition update_GUI (e : Env) (p : Program) : Program :=
  let '(str_cur_date, str_cur_time, _) := get_current_date_time e in
  set_window
    (set_readouts
       (str_cur_date +:+ "    " +:+ str_cur_time)
       (Py.format_i (update_counter_DAQ (qdev_ard p)))
       ("DAQ: " +:+ Py.format_f 1 (obtained_DAQ_rate_Hz (qdev_ard p)) +:+ " Hz")
       (Py.format_f 1 (time (state p)))
       (Py.format_f 1 (ds_temp (state p)))
       (Py.format_f 1 (bme_temp (state p)))
       (Py.format_f 1 (bme_humi (state p)))
       (Py.format_f 3 (bme_pres (state p)))
       (window p)) p.

(** ** update_chart *)

Definition update_chart (p : Program) : Program :=
  set_window (tsgwin_update_curves (window p)) p.

(** ** Program termination routines *)

(** Modelled from the spec: [QDeviceIO.quit], absent from this source tree;
    it stops the acquisition worker. *)
Definition qdev_quit (q : QDeviceIO) : QDeviceIO :=
  mkQDev (update_counter_DAQ q) (obtained_DAQ_rate_Hz q)
    (not_alive_counter_DAQ q) (critical_not_alive_count q) false.

Definition stop_running (p : Program) : option Program :=
  (* [app.processEvents()] delivers nothing here: slots run at once *)
  let p := set_qdev (qdev_quit (qdev_ard p)) p in
  '(l, d) ← close_log (file_logger p) (disk p);
  let p := set_logger l d p in
  Some (set_timer_chart false p).

Definition notify_connection_lost (e : Env) (p : Program) : option Program :=
  p ← stop_running p;
  let p :=
    set_window
      (set_title "    ! ! !    LOST CONNECTION    ! ! !    " (window p)) p in
  let reply := msgbox_reply e in
  match reply with
  | Ok => Some p   (* leave the GUI open for read-only inspection *)
  | _ => Some p
  end.

Definition about_to_quit (p : Program) : option Program :=
  p ← stop_running p;
  Some (set_ard (ard_close (ard p)) p).

(** ** Signal delivery *)

Definition run_slot (s : Slot) (e : Env) (arg : string) (p : Program)
  : option Program :=
  match s with
  | slot_update_GUI => Some (update_GUI e p)
  | slot_update_chart => Some (update_chart p)
  | slot_notify_connection_lost => notify_connection_lost e p
  | slot_about_to_quit => about_to_quit p
  | slot_process_qpbt_record => Some (process_qpbt_record p)
  | slot_process_qpbt_clear_chart => Some (process_qpbt_clear_chart e p)
  | slot_set_text_qpbt_record => Some (set_text_qpbt_record arg p)
  end.

Fixpoint run_slots (ss : list Slot) (e : Env) (arg : string) (p : Program)
  : option Program :=
  match ss with
  | [] => Some p
  | s :: ss' => p' ← run_slot s e arg p; run_slots ss' e arg p'
  end.

(** [sig.emit(arg)]: the slots connected to the signal run in turn. *)
Definition emit (sig : Signal) (e : Env) (arg : string) (p : Program)
  : option Program :=
  run_slots (connections sig) e arg (log_emit sig p).

(** ** Your Arduino update function *)

Definition use_PC_time : bool := true.

Definition log_header : string :=
  "time [s]" +:+ Py.TAB +:+
  "DS18B20 temp ('C)" +:+ Py.TAB +:+
  "BME280 temp ('C)" +:+ Py.TAB +:+
  "BME280 humi (pct)" +:+ Py.TAB +:+
  "BME280 pres (bar)" +:+ Py.LF.

(** ["%.1f\t%.3f\t%.3f\t%.3f\t%.5f\n" % (t, a, b, c, d)] *)
Definition log_line (t a b c d : float) : string :=
  Py.format_f 1 t +:+ Py.TAB +:+ Py.format_f 3 a +:+ Py.TAB +:+
  Py.format_f 3 b +:+ Py.TAB +:+ Py.format_f 3 c +:+ Py.TAB +:+
  Py.format_f 5 d +:+ Py.LF.

(** The [try] block: the five-way unpacking raises before anything is
    assigned when the count is wrong, then the two divisions in place. *)
Definition parse_readings (tmp_state : list float) : option State :=
  match tmp_state with
  | [t; a; b; c; d] =>
      Some (mkState (t / Py.float_of_int 1000) a b c (d / 1e5))
  | _ => None
  end.

(** [if file_logger.starting: ...] *)
Definition DAQ_log_starting (str_cur_datetime : string) (e : Env) (p : Program)
  : option Program :=
  if starting (file_logger p) then
    let fn_log := str_cur_datetime +:+ ".txt" in
    let '(created, l, d) :=
      create_log (time (state p)) fn_log "w" (file_logger p) (disk p) in
    let p := set_logger l d p in
    if created then
      p ← emit signal_set_recording_text e ("Recording to file: " +:+ fn_log) p;
      d ← logger_write log_header (file_logger p) (disk p);
      Some (set_logger (file_logger p) d p)
    else Some p
  else Some p.

(** [if file_logger.stopping: ...] *)
Definition DAQ_log_stopping (e : Env) (p : Program) : option Program :=
  if stopping (file_logger p) then
    p ← emit signal_set_recording_text e "Click to start recording to file" p;
    '(l, d) ← close_log (file_logger p) (disk p);
    Some (set_logger l d p)
  else Some p.

(** [if file_logger.is_recording: ...] *)
Definition DAQ_log_recording (p : Program) : option Program :=
  if is_recording (file_logger p) then
    let log_elapsed_time :=
      (time (state p) - start_time (file_logger p))%float in
    d ← logger_write
          (log_line log_elapsed_time (ds_temp (state p)) (bme_temp (state p))
             (bme_humi (state p)) (bme_pres (state p)))
          (file_logger p) (disk p);
    Some (set_logger (file_logger p) d p)
  else Some p.

(** Add readings to chart histories. *)
Definition DAQ_add_readings (p : Program) : Program :=
  let s := state p in
  let w := window p in
  set_window
    (set_curves
       (add_new_reading (time s) (ds_temp s) (tscurve_ds_temp w))
       (add_new_reading (time s) (bme_temp s) (tscurve_bme_temp w))
       (add_new_reading (time s) (bme_humi s) (tscurve_bme_humi w))
       (add_new_reading (time s) (bme_pres s) (tscurve_bme_pres w)) w) p.

Definition DAQ_function (e : Env) (p : Program) : option (bool * Program) :=
  (* Date-time keeping *)
  let '(str_cur_date, str_cur_time, str_cur_datetime) :=
    get_current_date_time e in
  (* Query the Arduino for its state *)
  let '(success, tmp_state, a) :=
    query_ascii_values "?" (serial_reply e) (ard p) in
  let p := set_ard a p in
  if negb success then Some (false, p)
  else
    (* Parse readings into separate state variables *)
    match parse_readings tmp_state with
    | None => Some (false, p)
    | Some s =>
        let p := set_state s p in
        (* Use Arduino time or PC time? *)
        let p :=
          if use_PC_time then
            set_state (mkState (perf_counter e) (ds_temp (state p))
                         (bme_temp (state p)) (bme_humi (state p))
                         (bme_pres (state p))) p
          else p in
        let p := DAQ_add_readings p in
        (* Logging to file *)
        p ← DAQ_log_starting str_cur_datetime e p;
        p ← DAQ_log_stopping e p;
        p ← DAQ_log_recording p;
        Some (true, p)
    end.

(** ** The acquisition worker's tick *)

(** Modelled from the spec: one period of the [QDeviceIO] acquisition
    worker, absent from this source tree.  While it is polling it calls the
    acquisition function; a failure adds one to the tally of consecutive
    failures and a success resets it; when the tally reaches the threshold
    the worker signals that the connection is lost and halts, otherwise it
    signals that an update took place.  A halted worker does nothing. *)
Definition worker_DAQ_update (e : Env) (p : Program) : option Program :=
  if negb (DAQ_running (qdev_ard p)) then Some p
  else
    '(success, p) ← DAQ_function e p;
    let q := qdev_ard p in
    let tally := if success : bool then O else S (not_alive_counter_DAQ q) in
    let lost := (critical_not_alive_count q <=? tally)%nat in
    let p :=
      set_qdev (mkQDev (update_counter_DAQ q + 1) (measured_rate e) tally
                  (critical_not_alive_count q) (negb lost)) p in
    if lost then emit signal_connection_lost e "" p
    else emit signal_DAQ_updated e "" p.

(** ** Main *)

(** The program once [__main__] has connected to the device, built the
    window and the logger, created the worker with
    [critical_not_alive_count = 3] and started it and the chart timer. *)
Definition main_init : Program :=
  mkProgram State_init MainWindow_init FileLogger_init
    (mkQDev 0 nan 0 3 true) (mkArduino "Ard" true []) true
    (mkDisk ∅ []) [].

(** What can happen while the event loop [app.exec_()] runs. *)
Inductive Event : Type :=
  | ev_DAQ_timer          (* the worker's period elapses *)
  | ev_timer_chart        (* [timer_chart] times out *)
  | ev_click_record       (* the user clicks the record toggle *)
  | ev_click_clear_chart  (* the user clicks Clear *)
  | ev_aboutToQuit.       (* the application is about to quit *)

(** A click on the checkable record button flips its checked state before
    [clicked] is emitted. *)
Definition toggle_record_button (p : Program) : Program :=
  let w := window p in
  set_window
    (set_record_button (qpbt_record_text w) (negb (qpbt_record_checked w)) w) p.

(** One event: a stopped chart timer no longer times out. *)
Definition handle (ev : Event) (e : Env) (p : Program) : option Program :=
  match ev with
  | ev_DAQ_timer => worker_DAQ_update e p
  | ev_timer_chart =>
      if timer_chart_active p then emit timer_chart_timeout e "" p else Some p
  | ev_click_record => emit qpbt_record_clicked e "" (toggle_record_button p)
  | ev_click_clear_chart => emit qpbt_clear_chart_clicked e "" p
  | ev_aboutToQuit => emit app_aboutToQuit e "" p
  end.

(** The event loop over a finite sequence of events, each with what the
    surroundings supply when it is served. *)
Fixpoint run (evs : list (Event * Env)) (p : Program) : option Program :=
  match evs with
  | [] => Some p
  | (ev, e) :: evs' => p' ← handle ev e p; run evs' p'
  end.

(** * Vocabulary of the properties *)

(** The logger is well formed when a recording session holds an open file. *)
Definition logger_wf (l : FileLogger) : Prop :=
  is_recording l = true -> is_Some (f_log l).

(** A poll fails when the link reports no success, or the line holds a
    value that is not a number, or it does not hold exactly five fields. *)
Definition malformed (r : Reply) : Prop :=
  link_success r = false
  \/ (exists s, In (NonNumeric s) (tokens r))
  \/ length (tokens r) <> 5.

(** The program once the query has been sent. *)
Definition after_query (p : Program) : Program :=
  set_ard (mkArduino (ard_name (ard p)) (is_alive (ard p))
             (sent (ard p) ++ ["?"])%list) p.

(** The Reading a successful poll leaves behind. *)
Definition reading_of (e : Env) (a b c d : float) : State :=
  mkState (perf_counter e) a b c (d / 1e5).

(** The three logging steps of the acquisition function in their order. *)
Definition DAQ_logging (e : Env) (p : Program) : option Program :=
  p ← DAQ_log_starting (yyMMdd_HHmmss (currentDateTime e)) e p;
  p ← DAQ_log_stopping e p;
  DAQ_log_recording p.

(** A reply of exactly five numeric fields. *)
Definition five_fields (e : Env) (t a b c d : float) : Prop :=
  link_success (serial_reply e) = true
  /\ tokens (serial_reply e) = map Numeric [t; a; b; c; d].

(** The claim as the specification words it: after a successful poll the
    time field is the device-reported value divided by 1000. *)
Definition time_is_device_time : Prop :=
  forall (e : Env) (p p' : Program) (t a b c d : float),
    five_fields e t a b c d ->
    DAQ_function e p = Some (true, p') ->
    state p' = mkState (t / 1000) a b c (d / 1e5).

(** A poll on which the device reports 5000 ms while the host clock reads
    123.25 s. *)
Definition env_5000 : Env :=
  mkEnv (mkDateTime "03-11-2026" "10:00:00" "261103_100000") 123.25%float
    (mkReply true
       [Numeric 5000%float; Numeric 20%float; Numeric 21%float;
        Numeric 45%float; Numeric 101325%float])
    Yes 1%float.

(** A run of appends to one curve, oldest first. *)
Fixpoint add_readings (xs : list (float * float)) (c : HistoryChartCurve)
  : HistoryChartCurve :=
  match xs with
  | [] => c
  | (x, y) :: xs' => add_readings xs' (add_new_reading x y c)
  end.

(** The surroundings of a click or a time-out at 10:00:05, with the button
    pressed in the dialog, if one is shown. *)
Definition env_click (b : StandardButton) : Env :=
  mkEnv (mkDateTime "03-11-2026" "10:00:05" "261103_100005") 130%float
    (mkReply false []) b 1%float.

(** The program after one successful poll from the start. *)
Definition after_first_poll : Program :=
  match DAQ_function env_5000 main_init with
  | Some (_, p) => p
  | None => main_init
  end.

(** The values a poll yields when it succeeds. *)
Definition poll_values (e : Env) : option State :=
  if link_success (serial_reply e) then
    match floats_of_tokens (tokens (serial_reply e)) with
    | Some xs => parse_readings xs
    | None => None
    end
  else None.

(** The data line a tick contributes to a session begun at host time
    [t0]: nothing when the poll fails. *)
Definition session_line (t0 : float) (e : Env) : string :=
  match poll_values e with
  | Some s =>
      log_line (perf_counter e - t0) (ds_temp s) (bme_temp s) (bme_humi s)
        (bme_pres s)
  | None => ""
  end.

(** The data lines of a run of ticks, in their order. *)
Fixpoint session_lines (t0 : float) (es : list Env) : string :=
  match es with
  | [] => ""
  | e :: es' => session_line t0 e +:+ session_lines t0 es'
  end.

(** Consecutive runs of the acquisition function, no user command in
    between. *)
Fixpoint DAQ_ticks (es : list Env) (p : Program) : option Program :=
  match es with
  | [] => Some p
  | e :: es' =>
      match DAQ_function e p with
      | Some (_, p') => DAQ_ticks es' p'
      | None => None
      end
  end.

(** What the record toggle asks for when it is released, and when it is
    pressed. *)
Definition request_stop (p : Program) : Program :=
  let l := file_logger p in
  set_logger (mkLogger (starting l) true (is_recording l) (start_time l)
                (f_log l)) (disk p) p.

Definition request_start (p : Program) : Program :=
  let l := file_logger p in
  set_logger (mkLogger true (stopping l) (is_recording l) (start_time l)
                (f_log l)) (disk p) p.

(** A session in progress: recording to [fn] since [t0], no request
    pending, [txt] written so far. *)
Definition recording_to (fn : string) (t0 : float) (txt : string) (p : Program)
  : Prop :=
  file_logger p = mkLogger false false true t0 (Some fn)
  /\ files (disk p) !! fn = Some txt.

(** A successful poll: the date-time stamp, the host clock and the numbers
    the device sends. *)
Definition env_reading (dt : string) (clock : float) (xs : list float) : Env :=
  mkEnv (mkDateTime "03-11-2026" "10:00:00" dt) clock
    (mkReply true (map Numeric xs)) Yes 1%float.

(** The two readings of the specification's example, then the poll on
    which the session is closed. *)
Definition env_ex0 : Env :=
  env_reading "261103_100000" 0 [0; 20.0; 21.0; 45.0; 101325]%float.
Definition env_ex1 : Env :=
  env_reading "261103_100001" 1 [1000; 20.1; 21.1; 45.1; 101326]%float.
Definition env_ex2 : Env :=
  env_reading "261103_100002" 2 [2000; 20.2; 21.2; 45.2; 101327]%float.

(** The program in the middle of the example session: recording since
    the first reading. *)
Definition recording_example : Program :=
  match DAQ_function env_ex0 (request_start main_init) with
  | Some (_, p) => p
  | None => main_init
  end.

(** An idle logger with no request pending. *)
Definition idle (p : Program) : Prop :=
  is_recording (file_logger p) = false
  /\ starting (file_logger p) = false
  /\ stopping (file_logger p) = false.

(** How many times the "connection lost" signal has fired. *)
Fixpoint count_lost (l : list Signal) : nat :=
  match l with
  | [] => 0
  | s :: l' =>
      (if Signal_eqb s signal_connection_lost then 1 else 0) + count_lost l'
  end.

(** What holds of the program however long the event loop has run. *)
Record Inv (p : Program) : Prop := mkInv {
  inv_wf : logger_wf (file_logger p);
  inv_threshold : critical_not_alive_count (qdev_ard p) = 3;
  inv_polling :
    DAQ_running (qdev_ard p) = true ->
    not_alive_counter_DAQ (qdev_ard p) < 3 /\ count_lost (emitted p) = 0;
  inv_halted :
    DAQ_running (qdev_ard p) = false -> count_lost (emitted p) <= 1
}.

(** What a halted worker guarantees across one more event. *)
Definition stays_halted (p p' : Program) : Prop :=
  DAQ_running (qdev_ard p') = false
  /\ sent (ard p') = sent (ard p)
  /\ count_lost (emitted p') = count_lost (emitted p).

(** The events that are neither a period of the worker nor the end of
    the application: chart time-outs and clicks. *)
Definition quiet (ev : Event) : bool :=
  match ev with
  | ev_timer_chart | ev_click_record | ev_click_clear_chart => true
  | ev_DAQ_timer | ev_aboutToQuit => false
  end.

(** Polls, each followed by the events that come before the next poll. *)
Definition rounds (rs : list (Env * list (Event * Env)))
  : list (Event * Env) :=
  concat (map (fun r => (ev_DAQ_timer, fst r) :: snd r) rs).

(** A poll on which the link reports no success. *)
Definition env_failed : Env :=
  mkEnv (mkDateTime "03-11-2026" "10:00:07" "261103_100007") 140%float
    (mkReply false []) Ok 1%float.

(** The text [update_GUI] puts in the readouts. *)
Definition rendered (e : Env) (s : State) (q : QDeviceIO) : list string :=
  [dd_MM_yyyy (currentDateTime e) +:+ "    " +:+ HH_mm_ss (currentDateTime e);
   Py.format_i (update_counter_DAQ q);
   "DAQ: " +:+ Py.format_f 1 (obtained_DAQ_rate_Hz q) +:+ " Hz";
   Py.format_f 1 (time s); Py.format_f 1 (ds_temp s);
   Py.format_f 1 (bme_temp s); Py.format_f 1 (bme_humi s);
   Py.format_f 3 (bme_pres s)].

(** The claim as the specification words it: the readouts are redrawn
    when the program's 500 ms timer times out, whether or not an
    acquisition update took place. *)
Definition readouts_on_own_timer : Prop :=
  forall (e : Env) (p p' : Program),
    emit timer_chart_timeout e "" p = Some p' ->
    readouts (window p') = rendered e (state p) (qdev_ard p).

(** The title the window shows once the connection is lost. *)
Definition lost_banner : string := "    ! ! !    LOST CONNECTION    ! ! !    ".

(** The shapes one event can give to the program: what [handle] does when
    it does not raise. *)
Inductive transition (e : Env) (p : Program) : Event -> Program -> Prop :=
  | tr_nothing (ev : Event) :
      transition e p ev p
  | tr_chart :
      transition e p ev_timer_chart
        (update_chart (log_emit timer_chart_timeout p))
  | tr_record :
      transition e p ev_click_record
        (process_qpbt_record
           (log_emit qpbt_record_clicked (toggle_record_button p)))
  | tr_clear :
      transition e p ev_click_clear_chart
        (process_qpbt_clear_chart e (log_emit qpbt_clear_chart_clicked p))
  | tr_quit (p1 : Program) :
      stop_running (log_emit app_aboutToQuit p) = Some p1 ->
      transition e p ev_aboutToQuit (set_ard (ard_close (ard p1)) p1)
  | tr_updated (ok : bool) (p1 : Program) (q' : QDeviceIO) :
      DAQ_running (qdev_ard p) = true ->
      DAQ_function e p = Some (ok, p1) ->
      transition e p ev_DAQ_timer
        (update_GUI e (log_emit signal_DAQ_updated (set_qdev q' p1)))
  | tr_lost (ok : bool) (p1 p2 : Program) (q' : QDeviceIO) :
      DAQ_running (qdev_ard p) = true ->
      DAQ_function e p = Some (ok, p1) ->
      stop_running (log_emit signal_connection_lost (set_qdev q' p1))
      = Some p2 ->
      transition e p ev_DAQ_timer
        (set_window (set_title lost_banner (window p2)) p2).

(** How many periods of the worker a sequence of events holds. *)
Fixpoint polls (evs : list (Event * Env)) : nat :=
  match evs with
  | [] => 0
  | (ev_DAQ_timer, _) :: evs' => S (polls evs')
  | _ :: evs' => polls evs'
  end.

(** The time stamps a curve holds, oldest first. *)
Definition times (c : HistoryChartCurve) : list float :=
  map fst (samples c).

(** Curves of the capacity the window gives them, all on one time axis. *)
Definition aligned (cs : list HistoryChartCurve) : Prop :=
  Forall (fun c => capacity c = num_samples
                   /\ length (samples c) <= num_samples) cs
  /\ exists ts : list float, Forall (fun c => times c = ts) cs.

(** The file a logger has open, if any. *)
Definition open_file (l : FileLogger) : option string :=
  if is_recording l then f_log l else None.

(** One file operation seen by a checker of the open/write/close protocol:
    [Some h] is the file now open, [None] a violation. *)
Definition file_step (st : option (option string)) (o : FileOp)
  : option (option string) :=
  match st with
  | None => None
  | Some None =>
      match o with
      | op_open fn _ => Some (Some fn)
      | op_write _ _ | op_close _ => None
      end
  | Some (Some cur) =>
      match o with
      | op_open _ _ => None
      | op_write fn _ => if String.eqb cur fn then Some (Some cur) else None
      | op_close fn => if String.eqb cur fn then Some None else None
      end
  end.

(** The whole history of file operations checked from a closed state. *)
Definition replay (os : list FileOp) : option (option string) :=
  fold_left file_step os (Some None).

(** The program has stopped running: the worker is halted and no file is
    being recorded. *)
Definition stopped (p : Program) : Prop :=
  DAQ_running (qdev_ard p) = false
  /\ is_recording (file_logger p) = false.

(** A click on the record toggle as the window serves it. *)
Definition click_record (p : Program) : Program :=
  process_qpbt_record (toggle_record_button p).

(** The title tells whether "connection lost" has fired. *)
Definition title_tells (p : Program) : Prop :=
  qlbl_title (window p)
  = if (count_lost (emitted p) =? 0)%nat then "Uber-Monitor" else lost_banner.

(** One line of tab-separated text as the specification writes it: the
    fields with a tab (character 9) between them and a line feed
    (character 10) at the end. *)
Fixpoint tsv_line (fields : list string) : string :=
  match fields with
  | [] => String "010"%char EmptyString
  | [x] => x +:+ String "010"%char EmptyString
  | x :: xs => x +:+ String "009"%char (tsv_line xs)
  end.

(** The claim as the specification words it: whenever start and stop are
    both pending at a successful tick, that tick creates the log file,
    writes the header line and closes the file. *)
Definition both_pending_creates_file : Prop :=
  forall (e : Env) (p p' : Program) (t a b c d : float),
    five_fields e t a b c d ->
    starting (file_logger p) = true ->
    stopping (file_logger p) = true ->
    DAQ_function e p = Some (true, p') ->
    let fn := yyMMdd_HHmmss (currentDateTime e) +:+ ".txt" in
    ops (disk p')
    = (ops (disk p)
       ++ [op_open fn "w";
           op_write fn
             (tsv_line ["time [s]"; "DS18B20 temp ('C)"; "BME280 temp ('C)";
                        "BME280 humi (pct)"; "BME280 pres (bar)"]);
           op_close fn])%list.

(** The program after: a click on the record toggle, a successful poll
    (the session starts), and two more clicks (release, press) before the
    next poll, so that a stop and a start are both pending while the
    logger records. *)
Definition recording_both_pending : Program :=
  default main_init
    (run [(ev_click_record, env_click Yes); (ev_DAQ_timer, env_ex0);
          (ev_click_record, env_click Yes); (ev_click_record, env_click Yes)]
       main_init).

(** * Properties *)

Lemma floats_of_tokens_None (ts : list Token) :
  floats_of_tokens ts = None <-> exists s, In (NonNumeric s) ts.
Proof.
  induction ts as [|[x|s] ts IH]; simpl.
  - split; [discriminate | intros [s []]].
  - destruct (floats_of_tokens ts) as [xs|].
    + split; [discriminate|].
      intros [s [H|H]]; [discriminate|].
      assert (Hn : Some xs = None) by (apply IH; exists s; exact H).
      discriminate.
    + split; [|reflexivity].
      intros _. destruct (proj1 IH eq_refl) as [s H]. exists s. right. exact H.
  - split; [|reflexivity]. intros _. exists s. left. reflexivity.
Qed.

Lemma floats_of_tokens_length (ts : list Token) (xs : list float) :
  floats_of_tokens ts = Some xs -> length xs = length ts.
Proof.
  revert xs. induction ts as [|[x|s] ts IH]; simpl; intros xs H.
  - injection H as <-. reflexivity.
  - destruct (floats_of_tokens ts) as [ys|]; [|discriminate].
    injection H as <-. simpl. f_equal. apply IH. reflexivity.
  - discriminate.
Qed.

Lemma floats_of_tokens_Numeric (xs : list float) :
  floats_of_tokens (map Numeric xs) = Some xs.
Proof.
  induction xs as [|x xs IH]; simpl; [reflexivity|]. rewrite IH. reflexivity.
Qed.

Lemma parse_readings_length (xs : list float) :
  length xs <> 5 -> parse_readings xs = None.
Proof.
  destruct xs as [|t [|a [|b [|c [|d [|x xs]]]]]]; simpl; intros H;
    try reflexivity.
  exfalso. apply H. reflexivity.
Qed.

(** A failed poll: the only trace it leaves is the command sent to the
    device. *)
Lemma DAQ_function_failed (e : Env) (p : Program) :
  malformed (serial_reply e) ->
  DAQ_function e p
  = Some (false, set_ard (mkArduino (ard_name (ard p)) (is_alive (ard p))
                            (sent (ard p) ++ ["?"])%list) p).
Proof.
  intros H. unfold DAQ_function, get_current_date_time, query_ascii_values.
  destruct (link_success (serial_reply e)) eqn:Hs; [|reflexivity].
  destruct (floats_of_tokens (tokens (serial_reply e))) as [xs|] eqn:Hf;
    [|reflexivity].
  destruct H as [H|[H|H]].
  - congruence.
  - apply floats_of_tokens_None in H. congruence.
  - simpl. rewrite parse_readings_length; [reflexivity|].
    rewrite (floats_of_tokens_length _ _ Hf). exact H.
Qed.

(** C2: for every failed or malformed poll (no success reported by the
    link, a non-numeric token, or a field count other than five) the
    acquisition function returns [False] without raising, and the Reading,
    the window with its four chart curves, the file logger with its latch
    flags, the files and the file operations, and the signals emitted are
    all what they were before the call. *)
Theorem DAQ_function_malformed_no_effect (e : Env) (p : Program) :
  malformed (serial_reply e) ->
  exists p',
    DAQ_function e p = Some (false, p')
    /\ state p' = state p
    /\ window p' = window p
    /\ curves (window p') = curves (window p)
    /\ file_logger p' = file_logger p
    /\ disk p' = disk p
    /\ emitted p' = emitted p.
Proof.
  intros H. eexists. split; [apply DAQ_function_failed; exact H|].
  repeat split.
Qed.

Lemma DAQ_function_malformed_no_effect_witness :
  let e := mkEnv (mkDateTime "03-11-2026" "10:00:00" "261103_100000")
             12.5%float
             (mkReply true [Numeric 1%float; NonNumeric "ovf"; Numeric 2%float])
             Yes 1%float in
  malformed (serial_reply e)
  /\ exists p',
       DAQ_function e main_init = Some (false, p')
       /\ state p' = state main_init
       /\ window p' = window main_init
       /\ curves (window p') = curves (window main_init)
       /\ file_logger p' = file_logger main_init
       /\ disk p' = disk main_init
       /\ emitted p' = emitted main_init.
Proof.
  intros e.
  assert (H : malformed (serial_reply e)).
  { right. left. exists "ovf". simpl. right. left. reflexivity. }
  split; [exact H|].
  exact (DAQ_function_malformed_no_effect e main_init H).
Defined.

(** *** The successful path, step by step *)

Lemma DAQ_function_parsed (e : Env) (p : Program) (t a b c d : float) :
  five_fields e t a b c d ->
  DAQ_function e p
  = (p' ← DAQ_logging e
            (DAQ_add_readings (set_state (reading_of e a b c d) (after_query p)));
     Some (true, p')).
Proof.
  intros [Hs Ht].
  unfold DAQ_function, get_current_date_time, query_ascii_values, DAQ_logging.
  rewrite Hs, Ht, floats_of_tokens_Numeric. simpl.
  unfold after_query, reading_of.
  destruct (DAQ_log_starting _ _) as [p1|]; simpl; [|reflexivity].
  destruct (DAQ_log_stopping _ _) as [p2|]; simpl; [|reflexivity].
  destruct (DAQ_log_recording _) as [p3|]; reflexivity.
Qed.

Lemma emit_set_recording_text (e : Env) (arg : string) (p : Program) :
  emit signal_set_recording_text e arg p
  = Some (set_text_qpbt_record arg (log_emit signal_set_recording_text p)).
Proof. reflexivity. Qed.

Ltac break_program :=
  repeat match goal with
    | p : Program |- _ => destruct p
    | l : FileLogger |- _ => destruct l
    end.

Ltac logging_cases :=
  unfold DAQ_logging, DAQ_log_starting, DAQ_log_stopping, DAQ_log_recording,
    create_log, close_log, logger_write, logger_wf in *;
  break_program; simpl in *;
  repeat match goal with
    | b : bool |- _ => destruct b; simpl in *
    | o : option string |- _ => destruct o; simpl in *
    | H : true = true -> is_Some None |- _ =>
        destruct (H eq_refl) as [? ?]; discriminate
    end.

(** The logging steps never raise on a well-formed logger; they leave the
    logger well formed and touch neither the Reading, the curves, the
    worker nor the device. *)
Lemma DAQ_logging_total (e : Env) (p : Program) :
  logger_wf (file_logger p) ->
  exists p',
    DAQ_logging e p = Some p'
    /\ logger_wf (file_logger p')
    /\ state p' = state p
    /\ curves (window p') = curves (window p)
    /\ readouts (window p') = readouts (window p)
    /\ qdev_ard p' = qdev_ard p
    /\ ard p' = ard p
    /\ timer_chart_active p' = timer_chart_active p.
Proof.
  intros Hwf.
  logging_cases; eexists; (split; [reflexivity|]); simpl;
    repeat split; try (intros; eauto; discriminate).
Qed.

(** Two floats with different IEEE representations are different. *)
Lemma float_neq (x y : float) : Prim2SF x <> Prim2SF y -> x <> y.
Proof. intros H E. apply H. rewrite E. reflexivity. Qed.

(** What a successful poll does to the Reading and to the curves. *)
Lemma DAQ_function_success (e : Env) (p : Program) (t a b c d : float) :
  five_fields e t a b c d ->
  logger_wf (file_logger p) ->
  exists p',
    DAQ_function e p = Some (true, p')
    /\ DAQ_logging e
         (DAQ_add_readings (set_state (reading_of e a b c d) (after_query p)))
       = Some p'
    /\ logger_wf (file_logger p')
    /\ state p' = reading_of e a b c d
    /\ curves (window p')
       = [add_new_reading (perf_counter e) a (tscurve_ds_temp (window p));
          add_new_reading (perf_counter e) b (tscurve_bme_temp (window p));
          add_new_reading (perf_counter e) c (tscurve_bme_humi (window p));
          add_new_reading (perf_counter e) (d / 1e5)
            (tscurve_bme_pres (window p))]
    /\ readouts (window p') = readouts (window p)
    /\ qdev_ard p' = qdev_ard p
    /\ sent (ard p') = (sent (ard p) ++ ["?"])%list
    /\ timer_chart_active p' = timer_chart_active p.
Proof.
  intros H5 Hwf.
  destruct (DAQ_logging_total e
              (DAQ_add_readings
                 (set_state (reading_of e a b c d) (after_query p))))
    as (p' & Hl & Hwf' & Hst & Hcv & Hro & Hq & Ha & Htc).
  { exact Hwf. }
  exists p'. rewrite (DAQ_function_parsed e p t a b c d H5), Hl.
  repeat split; try assumption.
  - rewrite Ha. reflexivity.
Qed.

(** C1, as stated, fails: the device reports 5000 ms while the host clock
    reads 123.25 s; after the poll the time field is 123.25, not 5. *)
Lemma time_is_device_time_fails : ~ time_is_device_time.
Proof.
  intros H.
  assert (H5 : five_fields env_5000 5000 20 21 45 101325)
    by (split; reflexivity).
  assert (Hr : exists p', DAQ_function env_5000 main_init = Some (true, p')
                          /\ time (state p') = 123.25%float).
  { eexists. split; [vm_compute; reflexivity|reflexivity]. }
  destruct Hr as (p' & Hd & Ht).
  specialize (H env_5000 main_init p' _ _ _ _ _ H5 Hd).
  rewrite H in Ht. simpl in Ht. revert Ht.
  apply float_neq. vm_compute. discriminate.
Qed.

(** C1 (amended): for every successful poll whose response parses as
    exactly five numeric fields, the parse step sets all five fields
    together (time = device time / 1000, pressure = device pressure / 1e5,
    the three others unchanged, nothing clamped), the time field is then
    overwritten with the host clock, and the acquisition function returns
    [True] leaving the Reading equal to (host clock, ds_temp, bme_temp,
    bme_humi, pressure / 1e5). *)
Theorem DAQ_function_updates_reading
  (e : Env) (p : Program) (t a b c d : float) :
  five_fields e t a b c d ->
  logger_wf (file_logger p) ->
  parse_readings [t; a; b; c; d]
  = Some (mkState (t / 1000) a b c (d / 1e5))
  /\ exists p',
       DAQ_function e p = Some (true, p')
       /\ state p' = mkState (perf_counter e) a b c (d / 1e5).
Proof.
  intros H5 Hwf. split; [reflexivity|].
  destruct (DAQ_function_success e p t a b c d H5 Hwf)
    as (p' & Hd & _ & _ & Hst & _).
  exists p'. split; [exact Hd | exact Hst].
Qed.

Lemma DAQ_function_updates_reading_witness :
  five_fields env_5000 5000 20 21 45 101325
  /\ logger_wf (file_logger main_init)
  /\ parse_readings [5000; 20; 21; 45; 101325]%float
     = Some (mkState (5000 / 1000) 20 21 45 (101325 / 1e5))
  /\ exists p',
       DAQ_function env_5000 main_init = Some (true, p')
       /\ state p' = mkState 123.25 20 21 45 (101325 / 1e5).
Proof.
  assert (H5 : five_fields env_5000 5000 20 21 45 101325)
    by (split; reflexivity).
  assert (Hwf : logger_wf (file_logger main_init))
    by (intros H; discriminate H).
  split; [exact H5|]. split; [exact Hwf|].
  exact (DAQ_function_updates_reading env_5000 main_init _ _ _ _ _ H5 Hwf).
Defined.

(** The logging steps read the surroundings only through the date and
    time. *)
Lemma DAQ_logging_env (e e' : Env) (p : Program) :
  currentDateTime e' = currentDateTime e ->
  DAQ_logging e' p = DAQ_logging e p.
Proof.
  intros H.
  unfold DAQ_logging, DAQ_log_starting, DAQ_log_stopping.
  rewrite H. reflexivity.
Qed.

(** C7: after every successful poll the time field of the Reading is the
    host clock [time.perf_counter()]; the samples appended to the four
    curves carry that host time; and the outcome of the whole acquisition
    step (Reading, curves, logger, files) is the same whatever time the
    device reported: the device time is parsed and divided by 1000, then
    overwritten before anything uses it. *)
Theorem DAQ_function_time_is_PC_time
  (e : Env) (p : Program) (t a b c d : float) :
  five_fields e t a b c d ->
  logger_wf (file_logger p) ->
  exists p',
    DAQ_function e p = Some (true, p')
    /\ time (state p') = perf_counter e
    /\ curves (window p')
       = [add_new_reading (perf_counter e) a (tscurve_ds_temp (window p));
          add_new_reading (perf_counter e) b (tscurve_bme_temp (window p));
          add_new_reading (perf_counter e) c (tscurve_bme_humi (window p));
          add_new_reading (perf_counter e) (d / 1e5)
            (tscurve_bme_pres (window p))]
    /\ forall (e' : Env) (t' : float),
         five_fields e' t' a b c d ->
         perf_counter e' = perf_counter e ->
         currentDateTime e' = currentDateTime e ->
         DAQ_function e' p = Some (true, p').
Proof.
  intros H5 Hwf.
  destruct (DAQ_function_success e p t a b c d H5 Hwf)
    as (p' & Hd & Hl & _ & Hst & Hcv & _).
  exists p'. split; [exact Hd|]. split; [rewrite Hst; reflexivity|].
  split; [exact Hcv|].
  intros e' t' H5' Hpc Hdt.
  rewrite (DAQ_function_parsed e' p t' a b c d H5').
  rewrite (DAQ_logging_env e e' _ Hdt).
  unfold reading_of in *. rewrite Hpc, Hl. reflexivity.
Qed.

Lemma DAQ_function_time_is_PC_time_witness :
  five_fields env_5000 5000 20 21 45 101325
  /\ logger_wf (file_logger main_init)
  /\ exists p',
       DAQ_function env_5000 main_init = Some (true, p')
       /\ time (state p') = 123.25%float
       /\ curves (window p')
          = [add_new_reading 123.25 20 (tscurve_ds_temp (window main_init));
             add_new_reading 123.25 21 (tscurve_bme_temp (window main_init));
             add_new_reading 123.25 45 (tscurve_bme_humi (window main_init));
             add_new_reading 123.25 (101325 / 1e5)
               (tscurve_bme_pres (window main_init))]
       /\ forall (e' : Env) (t' : float),
            five_fields e' t' 20 21 45 101325 ->
            perf_counter e' = 123.25%float ->
            currentDateTime e' = currentDateTime env_5000 ->
            DAQ_function e' main_init = Some (true, p').
Proof.
  assert (H5 : five_fields env_5000 5000 20 21 45 101325)
    by (split; reflexivity).
  assert (Hwf : logger_wf (file_logger main_init))
    by (intros H; discriminate H).
  split; [exact H5|]. split; [exact Hwf|].
  exact (DAQ_function_time_is_PC_time env_5000 main_init _ _ _ _ _ H5 Hwf).
Defined.

(** *** Chart histories *)

Lemma add_new_reading_bounded (x y : float) (c : HistoryChartCurve) :
  length (samples (add_new_reading x y c)) <= capacity c.
Proof.
  unfold add_new_reading. simpl. rewrite length_drop. lia.
Qed.

Lemma add_readings_capacity (xs : list (float * float)) (c : HistoryChartCurve) :
  capacity (add_readings xs c) = capacity c.
Proof.
  revert c. induction xs as [|[x y] xs IH]; intros c; simpl; [reflexivity|].
  rewrite IH. reflexivity.
Qed.

(** The contents after a run of appends: the last [capacity] samples of
    everything the curve ever held, in arrival order. *)
Lemma add_readings_samples (xs : list (float * float)) (c : HistoryChartCurve) :
  length (samples c) <= capacity c ->
  samples (add_readings xs c)
  = drop (length (samples c ++ xs) - capacity c) (samples c ++ xs)%list.
Proof.
  revert c. induction xs as [|[x y] xs IH]; intros c Hc; simpl.
  - rewrite app_nil_r.
    replace (length (samples c) - capacity c) with 0 by lia. reflexivity.
  - rewrite IH by exact (add_new_reading_bounded x y c).
    unfold add_new_reading. simpl.
    set (s := samples c) in *. set (n := capacity c) in *.
    rewrite <- drop_app_le by lia.
    rewrite drop_drop, <- app_assoc. simpl.
    f_equal.
    rewrite !length_app, length_drop, !length_app. simpl. lia.
Qed.

Lemma num_samples_py_60 : num_samples_py = Some 60%Z.
Proof. vm_compute. reflexivity. Qed.

(** C4: each of the four curves is created with capacity
    [num_samples = round(CHART_HISTORY_TIME * 1e3 / DAQ_INTERVAL_MS) = 60];
    for every sequence of appends to a curve of capacity [n] the capacity
    stays [n], the length never exceeds [n], the contents are the last [n]
    samples appended in arrival order; so after [n + 1] appends exactly the
    oldest sample is gone, and with a positive capacity the newest sample
    is the last one held. *)
Theorem chart_curve_bounded_fifo (n : nat) (xs : list (float * float)) :
  let c := add_readings xs (addThreadSafeCurve n) in
  Z.of_nat num_samples = (CHART_HISTORY_TIME * 1000 / DAQ_INTERVAL_MS)%Z
  /\ num_samples = 60
  /\ map capacity (curves MainWindow_init)
     = [num_samples; num_samples; num_samples; num_samples]
  /\ capacity c = n
  /\ length (samples c) <= n
  /\ samples c = drop (length xs - n) xs
  /\ (length xs = S n -> samples c = tail xs)
  /\ (0 < n -> last (samples c) = last xs).
Proof.
  intros c.
  assert (Hs : samples c = drop (length xs - n) xs).
  { unfold c. rewrite add_readings_samples by (simpl; lia). reflexivity. }
  split; [vm_compute; reflexivity|].
  split; [vm_compute; reflexivity|].
  split; [reflexivity|].
  split; [unfold c; rewrite add_readings_capacity; reflexivity|].
  split; [rewrite Hs, length_drop; lia|].
  split; [exact Hs|].
  split.
  - intros Hl. rewrite Hs, Hl.
    replace (S n - n) with 1 by lia.
    destruct xs; reflexivity.
  - intros Hn. rewrite Hs.
    destruct xs as [|x xs] using rev_ind; [reflexivity|].
    rewrite length_app. simpl.
    rewrite drop_app_le by lia.
    rewrite !last_snoc. reflexivity.
Qed.

Lemma chart_curve_bounded_fifo_witness :
  let xs := [(1, 20); (2, 21); (3, 22)]%float in
  let c := add_readings xs (addThreadSafeCurve 2) in
  length xs = 3 /\ 0 < 2
  /\ samples c = [(2, 21); (3, 22)]%float
  /\ last (samples c) = Some (3, 22)%float.
Proof.
  intros xs c.
  destruct (chart_curve_bounded_fifo 2 xs)
    as (_ & _ & _ & _ & _ & _ & Hevict & Hnew).
  assert (Hl : length xs = 3) by reflexivity.
  assert (Hp : 0 < 2) by lia.
  split; [exact Hl|]. split; [exact Hp|].
  split; [exact (Hevict Hl) | exact (Hnew Hp)].
Defined.

(** After a successful poll every curve of the window is within its
    capacity. *)
Lemma DAQ_function_curves_bounded
  (e : Env) (p : Program) (t a b c d : float) :
  five_fields e t a b c d ->
  logger_wf (file_logger p) ->
  exists p',
    DAQ_function e p = Some (true, p')
    /\ Forall (fun cv => length (samples cv) <= capacity cv)
         (curves (window p')).
Proof.
  intros H5 Hwf.
  destruct (DAQ_function_success e p t a b c d H5 Hwf)
    as (p' & Hd & _ & _ & _ & Hcv & _).
  exists p'. split; [exact Hd|]. rewrite Hcv.
  repeat (apply List.Forall_cons; [exact (add_new_reading_bounded _ _ _)|]).
  apply List.Forall_nil.
Qed.

(** *** Clearing the chart *)

(** C9: when the user confirms the "clear chart" dialog, all four curves
    are emptied (their capacities kept) and nothing else changes: the
    Reading, the file logger (file handle, start time, recording flag and
    latch flags), the files and file operations, the worker, the device,
    the chart timer, the readouts, the title and the record button are what
    they were. *)
Theorem process_qpbt_clear_chart_only_empties_curves (e : Env) (p : Program) :
  msgbox_reply e = Yes ->
  let p' := process_qpbt_clear_chart e p in
  map samples (curves (window p')) = [[]; []; []; []]
  /\ map capacity (curves (window p')) = map capacity (curves (window p))
  /\ state p' = state p
  /\ file_logger p' = file_logger p
  /\ disk p' = disk p
  /\ qdev_ard p' = qdev_ard p
  /\ ard p' = ard p
  /\ timer_chart_active p' = timer_chart_active p
  /\ emitted p' = emitted p
  /\ readouts (window p') = readouts (window p)
  /\ qlbl_title (window p') = qlbl_title (window p)
  /\ qpbt_record_text (window p') = qpbt_record_text (window p)
  /\ qpbt_record_checked (window p') = qpbt_record_checked (window p)
  /\ tsgwin_drawn (window p') = tsgwin_drawn (window p).
Proof.
  intros H p'. unfold p', process_qpbt_clear_chart. rewrite H.
  repeat split.
Qed.

Lemma process_qpbt_clear_chart_only_empties_curves_witness :
  msgbox_reply (env_click Yes) = Yes
  /\ map samples (curves (window after_first_poll))
     = [[(123.25, 20)]; [(123.25, 21)]; [(123.25, 45)];
        [(123.25, 101325 / 1e5)]]%float
  /\ let p' := process_qpbt_clear_chart (env_click Yes) after_first_poll in
     map samples (curves (window p')) = [[]; []; []; []]
     /\ state p' = state after_first_poll
     /\ file_logger p' = file_logger after_first_poll
     /\ disk p' = disk after_first_poll.
Proof.
  assert (H : msgbox_reply (env_click Yes) = Yes) by reflexivity.
  split; [exact H|]. split; [vm_compute; reflexivity|].
  destruct (process_qpbt_clear_chart_only_empties_curves
              (env_click Yes) after_first_poll H)
    as (H1 & _ & H3 & H4 & H5 & _).
  intros p'. split; [exact H1|]. split; [exact H3|].
  split; [exact H4 | exact H5].
Defined.

(** Declining the dialog changes nothing at all. *)
Lemma process_qpbt_clear_chart_declined (e : Env) (p : Program) :
  msgbox_reply e <> Yes -> process_qpbt_clear_chart e p = p.
Proof.
  intros H. unfold process_qpbt_clear_chart.
  destruct (msgbox_reply e); [exfalso; apply H| |]; reflexivity.
Qed.

(** *** The logging steps, case by case *)

Section LoggingSteps.

Variables (e : Env) (s : State) (w : MainWindow) (q : QDeviceIO).
Variables (ar : Arduino) (tc : bool) (dk : Disk) (em : list Signal).
Variables (t0 : float) (fl : option string) (f : string).

Let fn : string := yyMMdd_HHmmss (currentDateTime e) +:+ ".txt".

Let line (t1 : float) : string :=
  log_line (time s - t1) (ds_temp s) (bme_temp s) (bme_humi s) (bme_pres s).

Let button (txt : string) : MainWindow :=
  set_record_button txt (qpbt_record_checked w) w.

Let prog (l : FileLogger) : Program := mkProgram s w l q ar tc dk em.

Lemma DAQ_logging_idle :
  DAQ_logging e (prog (mkLogger false false false t0 fl))
  = Some (prog (mkLogger false false false t0 fl)).
Proof. reflexivity. Qed.

Lemma DAQ_logging_recording :
  DAQ_logging e (prog (mkLogger false false true t0 (Some f)))
  = Some (mkProgram s w (mkLogger false false true t0 (Some f)) q ar tc
            (py_write f (line t0) dk) em).
Proof. reflexivity. Qed.

Lemma DAQ_logging_start :
  DAQ_logging e (prog (mkLogger true false false t0 fl))
  = Some (mkProgram s (button ("Recording to file: " +:+ fn))
            (mkLogger false false true (time s) (Some fn)) q ar tc
            (py_write fn (line (time s))
               (py_write fn log_header (py_open fn "w" dk)))
            (em ++ [signal_set_recording_text])%list).
Proof. reflexivity. Qed.

Lemma DAQ_logging_stop :
  DAQ_logging e (prog (mkLogger false true true t0 (Some f)))
  = Some (mkProgram s (button "Click to start recording to file")
            (mkLogger false false false t0 None) q ar tc
            (py_close f dk) (em ++ [signal_set_recording_text])%list).
Proof. reflexivity. Qed.

Lemma DAQ_logging_stop_idle :
  DAQ_logging e (prog (mkLogger false true false t0 fl))
  = Some (mkProgram s (button "Click to start recording to file")
            (mkLogger false false false t0 fl) q ar tc
            dk (em ++ [signal_set_recording_text])%list).
Proof. reflexivity. Qed.

Lemma DAQ_logging_start_recording :
  DAQ_logging e (prog (mkLogger true false true t0 (Some f)))
  = Some (mkProgram s w (mkLogger false false true t0 (Some f)) q ar tc
            (py_write f (line t0) dk) em).
Proof. reflexivity. Qed.

Lemma DAQ_logging_start_stop :
  DAQ_logging e (prog (mkLogger true true false t0 fl))
  = Some (mkProgram s (button "Click to start recording to file")
            (mkLogger false false false (time s) None) q ar tc
            (py_close fn (py_write fn log_header (py_open fn "w" dk)))
            ((em ++ [signal_set_recording_text])
             ++ [signal_set_recording_text])%list).
Proof. reflexivity. Qed.

Lemma DAQ_polled (a b c d : float) (l : FileLogger) :
  DAQ_add_readings (set_state (reading_of e a b c d) (after_query (prog l)))
  = mkProgram (reading_of e a b c d)
      (set_curves
         (add_new_reading (perf_counter e) a (tscurve_ds_temp w))
         (add_new_reading (perf_counter e) b (tscurve_bme_temp w))
         (add_new_reading (perf_counter e) c (tscurve_bme_humi w))
         (add_new_reading (perf_counter e) (d / 1e5) (tscurve_bme_pres w)) w)
      l q (mkArduino (ard_name ar) (is_alive ar) (sent ar ++ ["?"])%list)
      tc dk em.
Proof. reflexivity. Qed.

End LoggingSteps.

(** *** Recording sessions *)

Lemma append_assoc (a b c : string) : (a +:+ b) +:+ c = a +:+ (b +:+ c).
Proof.
  induction a as [|ch a IH]; [reflexivity|].
  change (String ch ((a +:+ b) +:+ c) = String ch (a +:+ (b +:+ c))).
  f_equal. exact IH.
Qed.

Lemma append_empty_r (a : string) : a +:+ "" = a.
Proof.
  induction a as [|ch a IH]; [reflexivity|].
  change (String ch (a +:+ "") = String ch a).
  f_equal. exact IH.
Qed.

Lemma floats_of_tokens_Some (ts : list Token) (xs : list float) :
  floats_of_tokens ts = Some xs -> ts = map Numeric xs.
Proof.
  revert xs. induction ts as [|[x|s] ts IH]; simpl; intros xs H.
  - injection H as <-. reflexivity.
  - destruct (floats_of_tokens ts) as [ys|]; [|discriminate].
    injection H as <-. simpl. f_equal. apply IH. reflexivity.
  - discriminate.
Qed.

(** Every reply is either malformed or holds exactly five numbers. *)
Lemma poll_cases (e : Env) :
  malformed (serial_reply e) \/ exists t a b c d, five_fields e t a b c d.
Proof.
  destruct (link_success (serial_reply e)) eqn:Hs; [|left; left; exact Hs].
  destruct (floats_of_tokens (tokens (serial_reply e))) as [xs|] eqn:Hf.
  - pose proof (floats_of_tokens_Some _ _ Hf) as Ht.
    destruct xs as [|t [|a [|b [|c [|d [|x xs]]]]]];
      try (left; right; right; rewrite Ht; simpl; lia).
    right. exists t, a, b, c, d. split; [exact Hs | exact Ht].
  - left. right. left. apply floats_of_tokens_None. exact Hf.
Qed.

Lemma poll_values_malformed (e : Env) :
  malformed (serial_reply e) -> poll_values e = None.
Proof.
  intros H. unfold poll_values.
  destruct (link_success (serial_reply e)) eqn:Hs; [|reflexivity].
  destruct (floats_of_tokens (tokens (serial_reply e))) as [xs|] eqn:Hf;
    [|reflexivity].
  destruct H as [H|[H|H]].
  - congruence.
  - apply floats_of_tokens_None in H. congruence.
  - apply parse_readings_length.
    rewrite (floats_of_tokens_length _ _ Hf). exact H.
Qed.

Lemma poll_values_five_fields (e : Env) (t a b c d : float) :
  five_fields e t a b c d ->
  poll_values e = Some (mkState (t / 1000) a b c (d / 1e5)).
Proof.
  intros [Hs Ht]. unfold poll_values.
  rewrite Hs, Ht, floats_of_tokens_Numeric. reflexivity.
Qed.

Lemma process_qpbt_record_requests (p : Program) :
  process_qpbt_record p
  = if qpbt_record_checked (window p) then request_start p else request_stop p.
Proof. reflexivity. Qed.

Lemma recording_tick (e : Env) (p : Program) (fn : string) (t0 : float)
    (txt : string) :
  recording_to fn t0 txt p ->
  exists ok p',
    DAQ_function e p = Some (ok, p')
    /\ recording_to fn t0 (txt +:+ session_line t0 e) p'.
Proof.
  intros [Hl Hf]. unfold session_line.
  destruct (poll_cases e) as [Hm|(t & a & b & c & d & H5)].
  - rewrite (poll_values_malformed e Hm), append_empty_r.
    exists false. eexists. split; [apply DAQ_function_failed; exact Hm|].
    split; simpl; assumption.
  - rewrite (poll_values_five_fields e t a b c d H5).
    rewrite (DAQ_function_parsed e p t a b c d H5).
    destruct p as [s w l q ar tc dk em]. simpl in Hl, Hf. subst l.
    exists true. eexists. split; [reflexivity|].
    split; [reflexivity|]. simpl.
    rewrite lookup_insert_eq, Hf. reflexivity.
Qed.

Lemma recording_ticks (es : list Env) (p : Program) (fn : string) (t0 : float)
    (txt : string) :
  recording_to fn t0 txt p ->
  exists p',
    DAQ_ticks es p = Some p'
    /\ recording_to fn t0 (txt +:+ session_lines t0 es) p'.
Proof.
  revert p txt. induction es as [|e es IH]; intros p txt Hr; simpl.
  - exists p. rewrite append_empty_r. split; [reflexivity | exact Hr].
  - destruct (recording_tick e p fn t0 txt Hr) as (ok & p1 & Hd & Hr1).
    rewrite Hd.
    destruct (IH p1 _ Hr1) as (p' & Ht & Hr').
    exists p'. split; [exact Ht|].
    rewrite <- append_assoc. exact Hr'.
Qed.

(** The tick on which a requested session starts: the file is created,
    the header and the first data line are written. *)
Lemma session_start_tick (e0 : Env) (p : Program) (t a b c d : float) :
  is_recording (file_logger p) = false ->
  starting (file_logger p) = true ->
  stopping (file_logger p) = false ->
  five_fields e0 t a b c d ->
  let fn := yyMMdd_HHmmss (currentDateTime e0) +:+ ".txt" in
  exists p',
    DAQ_function e0 p = Some (true, p')
    /\ recording_to fn (perf_counter e0)
         (log_header +:+ session_line (perf_counter e0) e0) p'.
Proof.
  intros Hr Hs Hp H5 fn. unfold session_line.
  rewrite (poll_values_five_fields e0 t a b c d H5).
  rewrite (DAQ_function_parsed e0 p t a b c d H5).
  destruct p as [s w l q ar tc dk em]. destruct l as [st sp rec t0 fl].
  simpl in Hr, Hs, Hp. subst st sp rec.
  rewrite DAQ_polled, DAQ_logging_start. fold fn.
  eexists. split; [reflexivity|].
  split; [reflexivity|].
  unfold py_write, py_open. simpl.
  rewrite !lookup_insert_eq. simpl.
  reflexivity.
Qed.

Lemma request_stop_eq s w st sp rec t0 fl q ar tc dk em :
  request_stop (mkProgram s w (mkLogger st sp rec t0 fl) q ar tc dk em)
  = mkProgram s w (mkLogger st true rec t0 fl) q ar tc dk em.
Proof. reflexivity. Qed.

Lemma request_start_eq s w st sp rec t0 fl q ar tc dk em :
  request_start (mkProgram s w (mkLogger st sp rec t0 fl) q ar tc dk em)
  = mkProgram s w (mkLogger true sp rec t0 fl) q ar tc dk em.
Proof. reflexivity. Qed.

(** The tick on which a requested stop is served: the file is closed and
    keeps its text; no data line is written on that tick. *)
Lemma session_stop_tick (e : Env) (p : Program) (fn : string) (t0 : float)
    (txt : string) (t a b c d : float) :
  recording_to fn t0 txt p ->
  five_fields e t a b c d ->
  exists p',
    DAQ_function e (request_stop p) = Some (true, p')
    /\ file_logger p' = mkLogger false false false t0 None
    /\ files (disk p') = files (disk p)
    /\ ops (disk p') = (ops (disk p) ++ [op_close fn])%list.
Proof.
  intros [Hl Hf] H5.
  rewrite (DAQ_function_parsed e _ t a b c d H5).
  destruct p as [s w l q ar tc dk em]. simpl in Hl, Hf. subst l.
  rewrite request_stop_eq, DAQ_polled, DAQ_logging_stop.
  eexists. split; [reflexivity|].
  repeat split.
Qed.

Lemma log_header_text :
  log_header
  = tsv_line ["time [s]"; "DS18B20 temp ('C)"; "BME280 temp ('C)";
              "BME280 humi (pct)"; "BME280 pres (bar)"].
Proof. reflexivity. Qed.

Lemma log_line_text (t a b c d : float) :
  log_line t a b c d
  = tsv_line [Py.format_f 1 t; Py.format_f 3 a; Py.format_f 3 b;
              Py.format_f 3 c; Py.format_f 5 d].
Proof. reflexivity. Qed.

(** C5: a recording session is requested while the logger is idle, starts
    on the successful poll [e0], runs over the polls [es] and is closed on
    the successful poll [e1] after a stop request.  The file
    [yyMMdd_HHmmss.txt] it produces holds exactly the header line
    [time [s]<TAB>DS18B20 temp ('C)<TAB>BME280 temp ('C)<TAB>BME280 humi
    (pct)<TAB>BME280 pres (bar)] followed, for the polls [e0 :: es] in
    their order, by their data lines: a successful poll gives the line
    ["%.1f\t%.3f\t%.3f\t%.3f\t%.5f\n"] of (Reading time minus the Reading
    time at the start of the session, ds_temp, bme_temp, bme_humi,
    bme_pres), a failed poll gives nothing. *)
Theorem log_session_file_text
  (p : Program) (e0 : Env) (es : list Env) (e1 : Env)
  (t a b c d t' a' b' c' d' : float) :
  is_recording (file_logger p) = false ->
  starting (file_logger p) = true ->
  stopping (file_logger p) = false ->
  five_fields e0 t a b c d ->
  five_fields e1 t' a' b' c' d' ->
  let fn := yyMMdd_HHmmss (currentDateTime e0) +:+ ".txt" in
  let t0 := perf_counter e0 in
  exists p1 p2,
    DAQ_ticks (e0 :: es) p = Some p1
    /\ DAQ_function e1 (request_stop p1) = Some (true, p2)
    /\ is_recording (file_logger p2) = false
    /\ f_log (file_logger p2) = None
    /\ files (disk p2) !! fn
       = Some (tsv_line ["time [s]"; "DS18B20 temp ('C)"; "BME280 temp ('C)";
                         "BME280 humi (pct)"; "BME280 pres (bar)"]
               +:+ session_lines t0 (e0 :: es))
    /\ (forall (e : Env) (x y1 y2 y3 y4 : float),
          five_fields e x y1 y2 y3 y4 ->
          session_line t0 e
          = tsv_line [Py.format_f 1 (perf_counter e - t0); Py.format_f 3 y1;
                      Py.format_f 3 y2; Py.format_f 3 y3;
                      Py.format_f 5 (y4 / 1e5)])
    /\ (forall e : Env, malformed (serial_reply e) -> session_line t0 e = "").
Proof.
  intros Hr Hs Hp H5 H5' fn t0.
  destruct (session_start_tick e0 p t a b c d Hr Hs Hp H5) as (q0 & Hd0 & Hr0).
  destruct (recording_ticks es q0 _ _ _ Hr0) as (p1 & Ht & Hr1).
  destruct (session_stop_tick e1 p1 _ _ _ t' a' b' c' d' Hr1 H5')
    as (p2 & Hd1 & Hl2 & Hf2 & _).
  exists p1, p2. simpl DAQ_ticks. rewrite Hd0.
  split; [exact Ht|]. split; [exact Hd1|].
  rewrite Hl2, Hf2. split; [reflexivity|]. split; [reflexivity|].
  split; [|split].
  - destruct Hr1 as [_ Hf1]. fold fn in Hf1. rewrite Hf1.
    rewrite append_assoc, log_header_text. reflexivity.
  - intros e x y1 y2 y3 y4 He. unfold session_line.
    rewrite (poll_values_five_fields e x y1 y2 y3 y4 He).
    apply log_line_text.
  - intros e He. unfold session_line.
    rewrite (poll_values_malformed e He). reflexivity.
Qed.

Lemma log_session_file_text_witness :
  let p := request_start main_init in
  is_recording (file_logger p) = false
  /\ starting (file_logger p) = true
  /\ stopping (file_logger p) = false
  /\ five_fields env_ex0 0 20.0 21.0 45.0 101325
  /\ five_fields env_ex2 2000 20.2 21.2 45.2 101327
  /\ exists p1 p2,
       DAQ_ticks [env_ex0; env_ex1] p = Some p1
       /\ DAQ_function env_ex2 (request_stop p1) = Some (true, p2)
       /\ files (disk p2) !! "261103_100000.txt"
          = Some (tsv_line ["time [s]"; "DS18B20 temp ('C)";
                            "BME280 temp ('C)"; "BME280 humi (pct)";
                            "BME280 pres (bar)"]
                  +:+ tsv_line ["0.0"; "20.000"; "21.000"; "45.000"; "1.01325"]
                  +:+ tsv_line ["1.0"; "20.100"; "21.100"; "45.100"; "1.01326"]).
Proof.
  intros p.
  assert (H0 : five_fields env_ex0 0 20.0 21.0 45.0 101325)
    by (split; reflexivity).
  assert (H2 : five_fields env_ex2 2000 20.2 21.2 45.2 101327)
    by (split; reflexivity).
  repeat (split; [first [reflexivity | assumption]|]).
  destruct (log_session_file_text p env_ex0 [env_ex1] env_ex2
              _ _ _ _ _ _ _ _ _ _ eq_refl eq_refl eq_refl H0 H2)
    as (p1 & p2 & Ht & Hd & _ & _ & Hf & _).
  exists p1, p2. split; [exact Ht|]. split; [exact Hd|].
  etransitivity; [exact Hf|]. vm_compute. reflexivity.
Defined.

(** *** Redundant requests *)

(** C6: on a successful poll, a stop requested while the logger is idle
    and a start requested while it is recording are absorbed without any
    exception.  Stop while idle: no file operation takes place, the files
    are untouched and the logger is idle with the latch cleared.  Start
    while recording: no file is opened, the session keeps its file and its
    start time, the text already written stays in front of the one data
    line that the poll appends, and the latch is cleared. *)
Theorem redundant_requests_absorbed
  (e : Env) (p : Program) (t a b c d : float) :
  five_fields e t a b c d ->
  (is_recording (file_logger p) = false ->
   starting (file_logger p) = false ->
   exists p',
     DAQ_function e (request_stop p) = Some (true, p')
     /\ disk p' = disk p
     /\ file_logger p'
        = mkLogger false false false (start_time (file_logger p))
            (f_log (file_logger p)))
  /\ (forall (fn : string) (t0 : float) (txt : string),
        recording_to fn t0 txt p ->
        exists p',
          DAQ_function e (request_start p) = Some (true, p')
          /\ recording_to fn t0 (txt +:+ session_line t0 e) p'
          /\ ops (disk p')
             = (ops (disk p) ++ [op_write fn (session_line t0 e)])%list
          /\ files (disk p')
             = <[fn := txt +:+ session_line t0 e]> (files (disk p))).
Proof.
  intros H5. split.
  - intros Hr Hs.
    rewrite (DAQ_function_parsed e _ t a b c d H5).
    destruct p as [s w l q ar tc dk em]. destruct l as [st sp rec t0 fl].
    simpl in Hr, Hs. subst st rec.
    rewrite request_stop_eq, DAQ_polled, DAQ_logging_stop_idle.
    eexists. split; [reflexivity|]. split; reflexivity.
  - intros fn t0 txt [Hl Hf]. unfold session_line.
    rewrite (poll_values_five_fields e t a b c d H5).
    rewrite (DAQ_function_parsed e _ t a b c d H5).
    destruct p as [s w l q ar tc dk em]. simpl in Hl, Hf. subst l.
    rewrite request_start_eq, DAQ_polled, DAQ_logging_start_recording.
    eexists. split; [reflexivity|].
    unfold recording_to, py_write. simpl. rewrite Hf. simpl.
    rewrite lookup_insert_eq.
    repeat split.
Qed.

Lemma redundant_requests_absorbed_witness :
  five_fields env_ex1 1000 20.1 21.1 45.1 101326
  /\ (exists p',
        DAQ_function env_ex1 (request_stop main_init) = Some (true, p')
        /\ disk p' = disk main_init
        /\ file_logger p' = FileLogger_init)
  /\ exists p',
       DAQ_function env_ex1 (request_start recording_example) = Some (true, p')
       /\ ops (disk p')
          = (ops (disk recording_example)
             ++ [op_write "261103_100000.txt" (session_line 0 env_ex1)])%list.
Proof.
  assert (H5 : five_fields env_ex1 1000 20.1 21.1 45.1 101326)
    by (split; reflexivity).
  split; [exact H5|]. split.
  - destruct (redundant_requests_absorbed env_ex1 main_init _ _ _ _ _ H5)
      as [Hidle _].
    exact (Hidle eq_refl eq_refl).
  - destruct (redundant_requests_absorbed env_ex1 recording_example
                _ _ _ _ _ H5) as [_ Hrec].
    assert (Hr : recording_to "261103_100000.txt" 0
                   (log_header +:+ session_line 0 env_ex0) recording_example).
    { split; vm_compute; reflexivity. }
    destruct (Hrec _ _ _ Hr) as (p' & Hd & _ & Ho & _).
    exists p'. split; [exact Hd | exact Ho].
Defined.

(** *** Start and stop pending on the same tick *)

Lemma idle_tick (e : Env) (p : Program) :
  idle p ->
  exists ok p',
    DAQ_function e p = Some (ok, p') /\ idle p' /\ disk p' = disk p.
Proof.
  intros (Hr & Hs & Hp).
  destruct (poll_cases e) as [Hm|(t & a & b & c & d & H5)].
  - exists false. eexists. split; [apply DAQ_function_failed; exact Hm|].
    repeat split; assumption.
  - rewrite (DAQ_function_parsed e p t a b c d H5).
    destruct p as [s w l q ar tc dk em]. destruct l as [st sp rec t0 fl].
    simpl in Hr, Hs, Hp. subst st sp rec.
    rewrite DAQ_polled, DAQ_logging_idle.
    exists true. eexists. split; [reflexivity|]. repeat split.
Qed.

Lemma idle_ticks (es : list Env) (p : Program) :
  idle p ->
  exists p', DAQ_ticks es p = Some p' /\ idle p' /\ disk p' = disk p.
Proof.
  revert p. induction es as [|e es IH]; intros p Hi; simpl.
  - exists p. repeat split; apply Hi.
  - destruct (idle_tick e p Hi) as (ok & p1 & Hd & Hi1 & Hk1).
    rewrite Hd. destruct (IH p1 Hi1) as (p' & Ht & Hi' & Hk').
    exists p'. split; [exact Ht|]. split; [exact Hi'|]. congruence.
Qed.

Lemma DAQ_logging_start_stop_recording
    (e : Env) (s : State) (w : MainWindow) (q : QDeviceIO) (ar : Arduino)
    (tc : bool) (dk : Disk) (em : list Signal) (t0 : float) (f : string) :
  DAQ_logging e
    (mkProgram s w (mkLogger true true true t0 (Some f)) q ar tc dk em)
  = Some (mkProgram s
            (set_record_button "Click to start recording to file"
               (qpbt_record_checked w) w)
            (mkLogger false false false t0 None) q ar tc
            (py_close f dk) (em ++ [signal_set_recording_text])%list).
Proof. reflexivity. Qed.

(** C10, as stated, fails: after a click, a successful poll and two more
    clicks the logger is recording with a start and a stop both pending;
    the next successful poll creates no file and writes no header, it
    only closes the file of the running session. *)
Lemma both_pending_creates_file_fails : ~ both_pending_creates_file.
Proof.
  intros H.
  assert (H5 : five_fields env_ex1 1000 20.1 21.1 45.1 101326)
    by (split; reflexivity).
  assert (Hd : exists p',
             DAQ_function env_ex1 recording_both_pending = Some (true, p')
             /\ length (ops (disk p')) = 4).
  { eexists. split; vm_compute; reflexivity. }
  destruct Hd as (p' & Hd & Hlen).
  specialize (H env_ex1 recording_both_pending p' _ _ _ _ _ H5
                eq_refl eq_refl Hd).
  apply (f_equal (@length FileOp)) in H. rewrite Hlen in H.
  rewrite length_app in H. simpl in H. lia.
Qed.

(** C10 (amended): within one successful tick the pending start is served
    first, then the pending stop, and the data line is written only when
    the logger is still recording after both, so a tick with both pending
    writes no data line and leaves the logger idle.  When the logger was
    idle, that one tick creates the file, writes the header line [time
    [s]<TAB>DS18B20 temp ('C)<TAB>BME280 temp ('C)<TAB>BME280 humi
    (pct)<TAB>BME280 pres (bar)] and closes the file (its only file
    operations, in this order), and the file holds the header alone; when
    the logger was already recording, the start is absorbed and the tick
    only closes the file of the running session.  The polls that follow
    touch no file. *)
Theorem start_and_stop_same_tick
  (e : Env) (p : Program) (t a b c d : float) :
  five_fields e t a b c d ->
  logger_wf (file_logger p) ->
  starting (file_logger p) = true ->
  stopping (file_logger p) = true ->
  let fn := yyMMdd_HHmmss (currentDateTime e) +:+ ".txt" in
  let header :=
    tsv_line ["time [s]"; "DS18B20 temp ('C)"; "BME280 temp ('C)";
              "BME280 humi (pct)"; "BME280 pres (bar)"] in
  exists p',
    DAQ_function e p = Some (true, p')
    /\ DAQ_logging e
         (DAQ_add_readings (set_state (reading_of e a b c d) (after_query p)))
       = Some p'
    /\ idle p'
    /\ f_log (file_logger p') = None
    /\ (forall es : list Env,
          exists p'', DAQ_ticks es p' = Some p'' /\ disk p'' = disk p')
    /\ (is_recording (file_logger p) = false ->
        ops (disk p')
        = (ops (disk p)
           ++ [op_open fn "w"; op_write fn header; op_close fn])%list
        /\ files (disk p') !! fn = Some header)
    /\ (forall f : string,
          is_recording (file_logger p) = true ->
          f_log (file_logger p) = Some f ->
          ops (disk p') = (ops (disk p) ++ [op_close f])%list
          /\ files (disk p') = files (disk p)).
Proof.
  intros H5 Hwf Hs Hp fn header.
  rewrite (DAQ_function_parsed e p t a b c d H5).
  destruct p as [s w l q ar tc dk em]. destruct l as [st sp rec t0 fl].
  unfold logger_wf in Hwf. simpl in Hwf, Hs, Hp. subst st sp.
  rewrite DAQ_polled.
  destruct rec.
  - (* already recording: the start is absorbed, the stop closes the file *)
    destruct (Hwf eq_refl) as [f0 ->].
    rewrite DAQ_logging_start_stop_recording.
    eexists. split; [reflexivity|]. split; [reflexivity|].
    split; [repeat split|]. split; [reflexivity|].
    split.
    { intros es.
      match goal with |- exists p'', DAQ_ticks es ?x = _ /\ _ =>
        destruct (idle_ticks es x) as (p'' & Ht & _ & Hk); [repeat split|]
      end.
      exists p''. split; [exact Ht | exact Hk]. }
    split; [intros H; discriminate H|].
    intros f _ Hf. simpl in Hf. injection Hf as <-.
    split; reflexivity.
  - (* idle: the file is created, given its header and closed *)
    rewrite DAQ_logging_start_stop. fold fn.
    eexists. split; [reflexivity|]. split; [reflexivity|].
    split; [repeat split|]. split; [reflexivity|].
    split.
    { intros es.
      match goal with |- exists p'', DAQ_ticks es ?x = _ /\ _ =>
        destruct (idle_ticks es x) as (p'' & Ht & _ & Hk); [repeat split|]
      end.
      exists p''. split; [exact Ht | exact Hk]. }
    split; [|intros f H; discriminate H].
    intros _. unfold header. rewrite <- log_header_text. split.
    + simpl. rewrite <- !app_assoc. reflexivity.
    + unfold py_close, py_write, py_open. simpl.
      rewrite !lookup_insert_eq. reflexivity.
Qed.

Lemma start_and_stop_same_tick_witness :
  let p := request_stop (request_start main_init) in
  let header :=
    tsv_line ["time [s]"; "DS18B20 temp ('C)"; "BME280 temp ('C)";
              "BME280 humi (pct)"; "BME280 pres (bar)"] in
  five_fields env_ex0 0 20.0 21.0 45.0 101325
  /\ five_fields env_ex1 1000 20.1 21.1 45.1 101326
  /\ logger_wf (file_logger p)
  /\ logger_wf (file_logger recording_both_pending)
  /\ (exists p',
        DAQ_function env_ex0 p = Some (true, p')
        /\ ops (disk p')
           = [op_open "261103_100000.txt" "w";
              op_write "261103_100000.txt" header;
              op_close "261103_100000.txt"]
        /\ files (disk p') !! "261103_100000.txt" = Some header)
  /\ exists p',
       DAQ_function env_ex1 recording_both_pending = Some (true, p')
       /\ ops (disk p')
          = (ops (disk recording_both_pending)
             ++ [op_close "261103_100000.txt"])%list.
Proof.
  intros p header.
  assert (H0 : five_fields env_ex0 0 20.0 21.0 45.0 101325)
    by (split; reflexivity).
  assert (H1 : five_fields env_ex1 1000 20.1 21.1 45.1 101326)
    by (split; reflexivity).
  assert (Hwf : logger_wf (file_logger p)) by (intros H; discriminate H).
  assert (Hwf' : logger_wf (file_logger recording_both_pending)).
  { intros _. exists "261103_100000.txt". vm_compute. reflexivity. }
  split; [exact H0|]. split; [exact H1|]. split; [exact Hwf|].
  split; [exact Hwf'|]. split.
  - destruct (start_and_stop_same_tick env_ex0 p _ _ _ _ _ H0 Hwf
                eq_refl eq_refl)
      as (p' & Hd & _ & _ & _ & _ & Hidle & _).
    destruct (Hidle eq_refl) as [Ho Hf].
    exists p'. split; [exact Hd|]. split; [exact Ho | exact Hf].
  - destruct (start_and_stop_same_tick env_ex1 recording_both_pending
                _ _ _ _ _ H1 Hwf' eq_refl eq_refl)
      as (p' & Hd & _ & _ & _ & _ & _ & Hrec).
    destruct (Hrec "261103_100000.txt" eq_refl eq_refl) as [Ho _].
    exists p'. split; [exact Hd | exact Ho].
Defined.

(** *** Losing the connection *)

Lemma count_lost_app (l k : list Signal) :
  count_lost (l ++ k) = count_lost l + count_lost k.
Proof.
  induction l as [|s l IH]; simpl; [reflexivity|]. rewrite IH. lia.
Qed.

Lemma Inv_main_init : Inv main_init.
Proof.
  split; simpl.
  - intros H. discriminate H.
  - reflexivity.
  - intros _. split; [lia | reflexivity].
  - intros H. discriminate H.
Qed.

Lemma DAQ_logging_count_lost (e : Env) (p p' : Program) :
  DAQ_logging e p = Some p' ->
  count_lost (emitted p') = count_lost (emitted p).
Proof.
  revert p'. logging_cases; intros p' H;
    first [discriminate H | injection H as <-]; simpl;
    rewrite ?count_lost_app; simpl; lia.
Qed.

(** The acquisition function never raises on a well-formed logger, leaves
    the worker alone and does not signal a lost connection. *)
Lemma DAQ_function_total (e : Env) (p : Program) :
  logger_wf (file_logger p) ->
  exists ok p',
    DAQ_function e p = Some (ok, p')
    /\ logger_wf (file_logger p')
    /\ qdev_ard p' = qdev_ard p
    /\ sent (ard p') = (sent (ard p) ++ ["?"])%list
    /\ count_lost (emitted p') = count_lost (emitted p)
    /\ (malformed (serial_reply e) -> ok = false).
Proof.
  intros Hwf.
  destruct (poll_cases e) as [Hm|(t & a & b & c & d & H5)].
  - exists false. eexists. split; [apply DAQ_function_failed; exact Hm|].
    repeat split. exact Hwf.
  - destruct (DAQ_function_success e p t a b c d H5 Hwf)
      as (p' & Hd & Hl & Hwf' & _ & _ & _ & Hq & Hs & _).
    exists true, p'. split; [exact Hd|]. split; [exact Hwf'|].
    split; [exact Hq|]. split; [exact Hs|]. split.
    + rewrite (DAQ_logging_count_lost _ _ _ Hl). reflexivity.
    + intros Hm. exfalso.
      pose proof (DAQ_function_failed e p Hm) as Hf. congruence.
Qed.

Lemma stop_running_halts (p : Program) :
  logger_wf (file_logger p) ->
  exists p',
    stop_running p = Some p'
    /\ logger_wf (file_logger p')
    /\ DAQ_running (qdev_ard p') = false
    /\ critical_not_alive_count (qdev_ard p')
       = critical_not_alive_count (qdev_ard p)
    /\ ard p' = ard p
    /\ emitted p' = emitted p
    /\ timer_chart_active p' = false.
Proof.
  intros Hwf. unfold stop_running, close_log, logger_wf in *.
  destruct p as [s w l q ar tc dk em]. destruct l as [st sp rec t0 fl].
  simpl in *.
  destruct rec; [destruct (Hwf eq_refl) as [fn ->]|]; simpl;
    eexists; (split; [reflexivity|]); simpl; repeat split;
    intros H; discriminate H.
Qed.

Lemma emit_DAQ_updated (e : Env) (p : Program) :
  emit signal_DAQ_updated e "" p
  = Some (update_GUI e (log_emit signal_DAQ_updated p)).
Proof. reflexivity. Qed.

Lemma emit_DAQ_updated_any (e : Env) (arg : string) (p : Program) :
  emit signal_DAQ_updated e arg p
  = Some (update_GUI e (log_emit signal_DAQ_updated p)).
Proof. reflexivity. Qed.

Lemma emit_connection_lost (e : Env) (p : Program) :
  emit signal_connection_lost e "" p
  = notify_connection_lost e (log_emit signal_connection_lost p).
Proof.
  unfold emit. simpl.
  destruct (notify_connection_lost e _); reflexivity.
Qed.

Lemma notify_connection_lost_halts (e : Env) (p : Program) :
  logger_wf (file_logger p) ->
  exists p',
    notify_connection_lost e p = Some p'
    /\ logger_wf (file_logger p')
    /\ DAQ_running (qdev_ard p') = false
    /\ critical_not_alive_count (qdev_ard p')
       = critical_not_alive_count (qdev_ard p)
    /\ ard p' = ard p
    /\ emitted p' = emitted p.
Proof.
  intros Hwf.
  destruct (stop_running_halts p Hwf)
    as (p1 & Hs & Hwf1 & Hr & Hc & Ha & He & _).
  unfold notify_connection_lost. rewrite Hs. simpl.
  destruct (msgbox_reply e); eexists; (split; [reflexivity|]);
    repeat split; assumption.
Qed.

Lemma worker_DAQ_update_step (e : Env) (p : Program) :
  Inv p ->
  exists p',
    worker_DAQ_update e p = Some p'
    /\ Inv p'
    /\ (DAQ_running (qdev_ard p) = false -> p' = p)
    /\ (DAQ_running (qdev_ard p) = true ->
        malformed (serial_reply e) ->
        (DAQ_running (qdev_ard p') = true
         /\ not_alive_counter_DAQ (qdev_ard p')
            = S (not_alive_counter_DAQ (qdev_ard p)))
        \/ (DAQ_running (qdev_ard p') = false
            /\ count_lost (emitted p') = 1)).
Proof.
  intros HI. pose proof HI as [Hwf Hcrit Hpoll Hhalt].
  unfold worker_DAQ_update.
  destruct (DAQ_running (qdev_ard p)) eqn:Hrun; simpl.
  2:{ exists p. split; [reflexivity|]. split; [exact HI|].
      split; [reflexivity|]. intros H. discriminate H. }
  destruct (Hpoll eq_refl) as [Hn Hc0].
  destruct (DAQ_function_total e p Hwf)
    as (ok & p1 & Hd & Hwf1 & Hq & Hs & Hc & Hm).
  rewrite Hd. simpl. rewrite Hq, Hcrit.
  assert (Hupd : forall n : nat,
             n < 3 ->
             let q' := mkQDev (update_counter_DAQ (qdev_ard p) + 1)
                         (measured_rate e) n 3 true in
             Inv (update_GUI e (log_emit signal_DAQ_updated (set_qdev q' p1)))).
  { intros n Hlt q'. split; simpl.
    - exact Hwf1.
    - reflexivity.
    - intros _. split; [exact Hlt|].
      rewrite count_lost_app, Hc, Hc0. reflexivity.
    - intros H. discriminate H. }
  destruct ok.
  - (* the poll succeeded: the tally is reset *)
    simpl. rewrite emit_DAQ_updated. eexists.
    split; [reflexivity|]. split; [apply Hupd; lia|].
    split; [intros H; discriminate H|].
    intros _ Hmal. specialize (Hm Hmal). discriminate Hm.
  - (* the poll failed: the tally grows and may reach the threshold *)
    destruct (not_alive_counter_DAQ (qdev_ard p)) as [|[|[|n]]] eqn:Hcnt;
      [| | |lia]; simpl.
    + rewrite emit_DAQ_updated. eexists.
      split; [reflexivity|]. split; [apply Hupd; lia|].
      split; [intros H; discriminate H|].
      intros _ _. left. split; reflexivity.
    + rewrite emit_DAQ_updated. eexists.
      split; [reflexivity|]. split; [apply Hupd; lia|].
      split; [intros H; discriminate H|].
      intros _ _. left. split; reflexivity.
    + rewrite emit_connection_lost.
      match goal with |- exists p', notify_connection_lost e ?x = _ /\ _ =>
        destruct (notify_connection_lost_halts e x Hwf1)
          as (p' & Hn' & Hwf' & Hr' & Hc' & _ & He')
      end.
      assert (Hone : count_lost (emitted p') = 1).
      { rewrite He'. simpl. rewrite count_lost_app, Hc, Hc0. reflexivity. }
      exists p'. split; [exact Hn'|]. split.
      { split.
        - exact Hwf'.
        - rewrite Hc'. reflexivity.
        - rewrite Hr'. intros H. discriminate H.
        - intros _. rewrite Hone. lia. }
      split; [intros H; discriminate H|].
      intros _ _. right. split; [exact Hr' | exact Hone].
Qed.

(** The invariant only looks at the recording flag, the file handle, the
    worker and the number of "connection lost" signals. *)
Lemma Inv_frame (p p' : Program) :
  Inv p ->
  is_recording (file_logger p') = is_recording (file_logger p) ->
  f_log (file_logger p') = f_log (file_logger p) ->
  qdev_ard p' = qdev_ard p ->
  count_lost (emitted p') = count_lost (emitted p) ->
  Inv p'.
Proof.
  intros [Hwf Hcrit Hpoll Hhalt] Hr Hf Hq Hc.
  split; unfold logger_wf in *; rewrite ?Hr, ?Hf, ?Hq, ?Hc; assumption.
Qed.

Lemma count_lost_snoc_other (l : list Signal) (s : Signal) :
  Signal_eqb s signal_connection_lost = false ->
  count_lost (l ++ [s]) = count_lost l.
Proof.
  intros H. rewrite count_lost_app. simpl. rewrite H. lia.
Qed.

(** One event of the loop: it never raises, it keeps the invariant, and
    once the worker has halted no event makes it query the device or
    signal a lost connection again. *)
Lemma handle_step (ev : Event) (e : Env) (p : Program) :
  Inv p ->
  exists p',
    handle ev e p = Some p'
    /\ Inv p'
    /\ (DAQ_running (qdev_ard p) = false -> stays_halted p p').
Proof.
  intros HI. destruct ev; simpl.
  - (* the worker's period *)
    destruct (worker_DAQ_update_step e p HI) as (p' & Hw & HI' & Hh & _).
    exists p'. split; [exact Hw|]. split; [exact HI'|].
    intros Hrun. rewrite (Hh Hrun). repeat split. exact Hrun.
  - (* chart timer *)
    destruct (timer_chart_active p).
    + exists (update_chart (log_emit timer_chart_timeout p)).
      split; [reflexivity|]. split.
      * apply (Inv_frame p); try reflexivity; [exact HI|].
        simpl. apply count_lost_snoc_other. reflexivity.
      * intros Hrun. split; [exact Hrun|]. split; [reflexivity|].
        simpl. apply count_lost_snoc_other. reflexivity.
    + exists p. split; [reflexivity|]. split; [exact HI|].
      intros Hrun. repeat split. exact Hrun.
  - (* record toggle *)
    exists (process_qpbt_record
              (log_emit qpbt_record_clicked (toggle_record_button p))).
    split; [reflexivity|].
    assert (Hc : count_lost
                   (emitted (process_qpbt_record
                               (log_emit qpbt_record_clicked
                                  (toggle_record_button p))))
                 = count_lost (emitted p)).
    { unfold process_qpbt_record.
      destruct (qpbt_record_checked _); simpl;
        apply count_lost_snoc_other; reflexivity. }
    split.
    + apply (Inv_frame p); [exact HI| | | |exact Hc];
        unfold process_qpbt_record;
        destruct (qpbt_record_checked _); reflexivity.
    + intros Hrun. split; [|split; [|exact Hc]];
        unfold process_qpbt_record;
        destruct (qpbt_record_checked _); simpl; first [exact Hrun|reflexivity].
  - (* clear chart *)
    exists (process_qpbt_clear_chart e
              (log_emit qpbt_clear_chart_clicked p)).
    split; [reflexivity|].
    assert (Hc : count_lost
                   (emitted (process_qpbt_clear_chart e
                               (log_emit qpbt_clear_chart_clicked p)))
                 = count_lost (emitted p)).
    { unfold process_qpbt_clear_chart.
      destruct (msgbox_reply e); simpl;
        apply count_lost_snoc_other; reflexivity. }
    split.
    + apply (Inv_frame p); [exact HI| | | |exact Hc];
        unfold process_qpbt_clear_chart;
        destruct (msgbox_reply e); reflexivity.
    + intros Hrun. split; [|split; [|exact Hc]];
        unfold process_qpbt_clear_chart;
        destruct (msgbox_reply e); simpl; first [exact Hrun|reflexivity].
  - (* about to quit *)
    destruct HI as [Hwf Hcrit Hpoll Hhalt].
    destruct (stop_running_halts (log_emit app_aboutToQuit p) Hwf)
      as (p1 & Hs & Hwf1 & Hr1 & Hc1 & Ha1 & He1 & _).
    exists (set_ard (ard_close (ard p1)) p1).
    assert (Hc : count_lost (emitted p1) = count_lost (emitted p)).
    { rewrite He1. simpl. apply count_lost_snoc_other. reflexivity. }
    split.
    { unfold emit. simpl. unfold about_to_quit. rewrite Hs. reflexivity. }
    split.
    + split; simpl.
      * exact Hwf1.
      * rewrite Hc1. exact Hcrit.
      * rewrite Hr1. intros H. discriminate H.
      * intros _. rewrite Hc.
        destruct (DAQ_running (qdev_ard p)) eqn:Hrun.
        -- destruct (Hpoll eq_refl) as [_ H0]. rewrite H0. lia.
        -- apply Hhalt. reflexivity.
    + intros Hrun. split; [exact Hr1|]. split; [|exact Hc].
      simpl. rewrite Ha1. reflexivity.
Qed.

Lemma run_step (evs : list (Event * Env)) (p : Program) :
  Inv p ->
  exists p',
    run evs p = Some p'
    /\ Inv p'
    /\ (DAQ_running (qdev_ard p) = false -> stays_halted p p').
Proof.
  revert p. induction evs as [|[ev e] evs IH]; intros p HI; simpl.
  - exists p. split; [reflexivity|]. split; [exact HI|].
    intros Hrun. repeat split. exact Hrun.
  - destruct (handle_step ev e p HI) as (p1 & Hh & HI1 & Hs1).
    rewrite Hh. simpl.
    destruct (IH p1 HI1) as (p' & Hr & HI' & Hs').
    exists p'. split; [exact Hr|]. split; [exact HI'|].
    intros Hrun. destruct (Hs1 Hrun) as (Hr1 & Ha1 & Hc1).
    destruct (Hs' Hr1) as (Hr2 & Ha2 & Hc2).
    split; [exact Hr2|]. split; congruence.
Qed.

(** Every program the event loop can reach satisfies the invariant. *)
Lemma run_reaches_Inv (evs : list (Event * Env)) (p : Program) :
  run evs main_init = Some p -> Inv p.
Proof.
  intros H.
  destruct (run_step evs main_init Inv_main_init) as (p' & Hr & HI & _).
  congruence.
Qed.

Lemma run_app (evs evs' : list (Event * Env)) (p : Program) :
  run (evs ++ evs') p = (p' ← run evs p; run evs' p').
Proof.
  revert p. induction evs as [|[ev e] evs IH]; intros p; simpl.
  - reflexivity.
  - destruct (handle ev e p) as [p1|]; simpl; [apply IH | reflexivity].
Qed.

(** A chart time-out or a click leaves the worker and the number of
    "connection lost" signals alone. *)
Lemma handle_quiet (ev : Event) (e : Env) (p : Program) :
  quiet ev = true ->
  Inv p ->
  exists p',
    handle ev e p = Some p'
    /\ Inv p'
    /\ qdev_ard p' = qdev_ard p
    /\ count_lost (emitted p') = count_lost (emitted p).
Proof.
  intros Hq HI.
  assert (Hgen : forall p' : Program,
             is_recording (file_logger p') = is_recording (file_logger p) ->
             f_log (file_logger p') = f_log (file_logger p) ->
             qdev_ard p' = qdev_ard p ->
             count_lost (emitted p') = count_lost (emitted p) ->
             Inv p' /\ qdev_ard p' = qdev_ard p
             /\ count_lost (emitted p') = count_lost (emitted p)).
  { intros p' H1 H2 H3 H4. split; [|split; assumption].
    apply (Inv_frame p); assumption. }
  destruct ev; try discriminate Hq; simpl.
  - destruct (timer_chart_active p).
    + eexists. split; [reflexivity|]. apply Hgen; try reflexivity.
      simpl. apply count_lost_snoc_other. reflexivity.
    + exists p. split; [reflexivity|]. apply Hgen; reflexivity.
  - eexists. split; [reflexivity|].
    apply Hgen; unfold process_qpbt_record;
      destruct (qpbt_record_checked _); try reflexivity;
      simpl; apply count_lost_snoc_other; reflexivity.
  - eexists. split; [reflexivity|].
    apply Hgen; unfold process_qpbt_clear_chart;
      destruct (msgbox_reply e); try reflexivity;
      simpl; apply count_lost_snoc_other; reflexivity.
Qed.

Lemma run_quiet (evs : list (Event * Env)) (p : Program) :
  Forall (fun x => quiet (fst x) = true) evs ->
  Inv p ->
  exists p',
    run evs p = Some p'
    /\ Inv p'
    /\ qdev_ard p' = qdev_ard p
    /\ count_lost (emitted p') = count_lost (emitted p).
Proof.
  revert p. induction evs as [|[ev e] evs IH]; intros p Hall HI; simpl.
  - exists p. split; [reflexivity|]. split; [exact HI|]. split; reflexivity.
  - inversion Hall as [|x l Hq Hrest]; subst. simpl in Hq.
    destruct (handle_quiet ev e p Hq HI) as (p1 & Hh & HI1 & Hq1 & Hc1).
    rewrite Hh. simpl.
    destruct (IH p1 Hrest HI1) as (p' & Hr & HI' & Hq' & Hc').
    exists p'. split; [exact Hr|]. split; [exact HI'|].
    split; congruence.
Qed.

(** A run of failed polls, each followed by any number of chart time-outs
    and clicks: either the worker is still polling and its tally has grown
    by the number of polls, or it has halted, having signalled the lost
    connection once if it was polling at the start. *)
Lemma failed_rounds (rs : list (Env * list (Event * Env))) (p : Program) :
  Inv p ->
  Forall (fun r => malformed (serial_reply (fst r))
                   /\ Forall (fun x => quiet (fst x) = true) (snd r)) rs ->
  exists p',
    run (rounds rs) p = Some p'
    /\ Inv p'
    /\ ((DAQ_running (qdev_ard p) = true
         /\ DAQ_running (qdev_ard p') = true
         /\ not_alive_counter_DAQ (qdev_ard p')
            = length rs + not_alive_counter_DAQ (qdev_ard p))
        \/ (DAQ_running (qdev_ard p') = false
            /\ (DAQ_running (qdev_ard p) = true ->
                count_lost (emitted p') = 1))).
Proof.
  revert p. induction rs as [|[f mid] rs IH]; intros p HI Hall.
  - exists p. split; [reflexivity|]. split; [exact HI|].
    destruct (DAQ_running (qdev_ard p)) eqn:Hrun.
    + left. repeat split.
    + right. split; [reflexivity|]. intros H. discriminate H.
  - inversion Hall as [|r l [Hf Hmid] Hrs]; subst. simpl in Hf, Hmid.
    destruct (worker_DAQ_update_step f p HI) as (p1 & Hw & HI1 & Hh & Hfail).
    change (run (rounds ((f, mid) :: rs)) p)
      with (p1' ← worker_DAQ_update f p; run (mid ++ rounds rs) p1').
    rewrite Hw. simpl.
    destruct (DAQ_running (qdev_ard p)) eqn:Hrun.
    + destruct (Hfail eq_refl Hf) as [[Hr1 Hn1]|[Hr1 Hc1]].
      * rewrite run_app.
        destruct (run_quiet mid p1 Hmid HI1) as (p2 & Hr2 & HI2 & Hq2 & _).
        rewrite Hr2. simpl.
        destruct (IH p2 HI2 Hrs)
          as (p' & Hr & HI' & [(_ & Hr' & Hn')|[Hr' Hc']]).
        -- exists p'. split; [exact Hr|]. split; [exact HI'|].
           left. split; [reflexivity|]. split; [exact Hr'|].
           rewrite Hn', Hq2, Hn1. simpl. lia.
        -- exists p'. split; [exact Hr|]. split; [exact HI'|].
           right. split; [exact Hr'|]. intros _. apply Hc'.
           rewrite Hq2. exact Hr1.
      * destruct (run_step (mid ++ rounds rs) p1 HI1)
          as (p' & Hr & HI' & Hs').
        destruct (Hs' Hr1) as (Hr2 & _ & Hc2).
        exists p'. split; [exact Hr|]. split; [exact HI'|].
        right. split; [exact Hr2|]. intros _. congruence.
    + rewrite (Hh eq_refl) in *.
      destruct (run_step (mid ++ rounds rs) p HI)
        as (p' & Hr & HI' & Hs').
      destruct (Hs' Hrun) as (Hr2 & _ & _).
      exists p'. split; [exact Hr|]. split; [exact HI'|].
      right. split; [exact Hr2|]. intros H. discriminate H.
Qed.

(** C3: however the program got where it is, if its worker is still
    polling and three polls in a row fail (chart time-outs and clicks may
    come in between), then after the third the worker has halted and
    "connection lost" has fired exactly once; and whatever events follow
    (timer periods, clicks, quitting), no further query is sent to the
    device, the worker never polls again, and the signal does not fire a
    second time. *)
Theorem connection_lost_after_three_failures
  (pre mid1 mid2 post : list (Event * Env)) (f1 f2 f3 : Env) (p0 : Program) :
  run pre main_init = Some p0 ->
  DAQ_running (qdev_ard p0) = true ->
  malformed (serial_reply f1) ->
  malformed (serial_reply f2) ->
  malformed (serial_reply f3) ->
  Forall (fun x => quiet (fst x) = true) mid1 ->
  Forall (fun x => quiet (fst x) = true) mid2 ->
  exists p3 p',
    run ((ev_DAQ_timer, f1) :: mid1 ++ (ev_DAQ_timer, f2) :: mid2
         ++ [(ev_DAQ_timer, f3)]) p0
    = Some p3
    /\ DAQ_running (qdev_ard p3) = false
    /\ count_lost (emitted p3) = 1
    /\ run post p3 = Some p'
    /\ DAQ_running (qdev_ard p') = false
    /\ sent (ard p') = sent (ard p3)
    /\ count_lost (emitted p') = 1.
Proof.
  intros Hpre Hrun H1 H2 H3 Hm1 Hm2.
  pose proof (run_reaches_Inv pre p0 Hpre) as HI.
  destruct (failed_rounds [(f1, mid1); (f2, mid2); (f3, [])] p0 HI)
    as (p3 & Hr3 & HI3 & Hcase).
  { repeat (apply List.Forall_cons; [split; simpl; first [assumption|apply List.Forall_nil]|]).
    apply List.Forall_nil. }
  assert (Hhalt : DAQ_running (qdev_ard p3) = false
                  /\ count_lost (emitted p3) = 1).
  { destruct Hcase as [(_ & Hr & Hn)|[Hr Hc]].
    - exfalso. destruct (inv_polling p3 HI3 Hr) as [Hlt _].
      rewrite Hn in Hlt. simpl in Hlt. lia.
    - split; [exact Hr | exact (Hc Hrun)]. }
  destruct Hhalt as [Hr Hc].
  destruct (run_step post p3 HI3) as (p' & Hp & _ & Hs).
  destruct (Hs Hr) as (Hr' & Ha' & Hc').
  exists p3, p'.
  split.
  { rewrite <- Hr3. unfold rounds. simpl. rewrite ?app_nil_r. reflexivity. }
  split; [exact Hr|]. split; [exact Hc|].
  split; [exact Hp|]. split; [exact Hr'|]. split; [exact Ha'|]. congruence.
Qed.

Lemma connection_lost_after_three_failures_witness :
  let pre := [(ev_DAQ_timer, env_ex0); (ev_timer_chart, env_click Yes)] in
  let mid := [(ev_timer_chart, env_click Yes);
              (ev_timer_chart, env_click Yes)] in
  let p0 := default main_init (run pre main_init) in
  run pre main_init = Some p0
  /\ DAQ_running (qdev_ard p0) = true
  /\ malformed (serial_reply env_failed)
  /\ Forall (fun x => quiet (fst x) = true) mid
  /\ exists p3 p',
       run ((ev_DAQ_timer, env_failed) :: mid
            ++ (ev_DAQ_timer, env_failed) :: mid
            ++ [(ev_DAQ_timer, env_failed)]) p0
       = Some p3
       /\ count_lost (emitted p3) = 1
       /\ run [(ev_DAQ_timer, env_ex1); (ev_click_record, env_ex1);
               (ev_DAQ_timer, env_ex2)] p3 = Some p'
       /\ sent (ard p') = sent (ard p3)
       /\ count_lost (emitted p') = 1.
Proof.
  intros pre mid p0.
  assert (Hpre : run pre main_init = Some p0) by (vm_compute; reflexivity).
  assert (Hrun : DAQ_running (qdev_ard p0) = true)
    by (vm_compute; reflexivity).
  assert (Hm : malformed (serial_reply env_failed)) by (left; reflexivity).
  assert (Hq : Forall (fun x => quiet (fst x) = true) mid).
  { repeat (apply List.Forall_cons; [reflexivity|]). apply List.Forall_nil. }
  split; [exact Hpre|]. split; [exact Hrun|]. split; [exact Hm|].
  split; [exact Hq|].
  destruct (connection_lost_after_three_failures pre mid mid
              [(ev_DAQ_timer, env_ex1); (ev_click_record, env_ex1);
               (ev_DAQ_timer, env_ex2)]
              env_failed env_failed env_failed p0 Hpre Hrun Hm Hm Hm Hq Hq)
    as (p3 & p' & H3 & _ & Hc3 & Hp & _ & Hs & Hc).
  exists p3, p'. split; [exact H3|]. split; [exact Hc3|].
  split; [exact Hp|]. split; [exact Hs | exact Hc].
Defined.

(** *** What redraws the readouts *)

Lemma update_GUI_readouts (e : Env) (p : Program) :
  readouts (window (update_GUI e p)) = rendered e (state p) (qdev_ard p).
Proof. reflexivity. Qed.

Lemma stop_running_readouts (p p' : Program) :
  stop_running p = Some p' -> readouts (window p') = readouts (window p).
Proof.
  unfold stop_running.
  destruct (close_log _ _) as [[l d]|]; simpl; intros H;
    [injection H as <-; reflexivity | discriminate H].
Qed.

(** C8, as stated, fails: at start-up the 500 ms timer times out at
    10:00:05 on 03-11-2026 and the date and time readout still shows its
    placeholder. *)
Lemma readouts_on_own_timer_fails : ~ readouts_on_own_timer.
Proof.
  intros H.
  specialize (H (env_click Yes) main_init _ eq_refl).
  vm_compute in H. discriminate H.
Qed.

(** C8 (amended): the readouts (Reading fields, update counter, measured
    rate, date and time) are redrawn by [update_GUI], which is connected to
    the acquisition worker's [signal_DAQ_updated] and to nothing else, so
    they are refreshed when an acquisition update is signalled; the
    program's only timer, [timer_chart] (500 ms, against 1000 ms for the
    acquisition), is connected to [update_chart], and neither its time-out
    nor any signal other than [signal_DAQ_updated] changes a readout. *)
Theorem readouts_redrawn_on_DAQ_updated
  (sig : Signal) (e : Env) (arg : string) (p p' : Program) :
  emit sig e arg p = Some p' ->
  (sig = signal_DAQ_updated ->
   readouts (window p') = rendered e (state p) (qdev_ard p))
  /\ (sig <> signal_DAQ_updated ->
      readouts (window p') = readouts (window p))
  /\ (In slot_update_GUI (connections sig) <-> sig = signal_DAQ_updated)
  /\ connections timer_chart_timeout = [slot_update_chart]
  /\ CHART_INTERVAL_MS = 500%Z
  /\ DAQ_INTERVAL_MS = 1000%Z.
Proof.
  intros H. split; [|split; [|split; [|repeat split]]].
  - intros ->. rewrite emit_DAQ_updated_any in H.
    injection H as <-. reflexivity.
  - intros Hne. unfold emit in H.
    destruct sig; simpl in H; try (exfalso; apply Hne; reflexivity).
    + (* connection lost *)
      unfold notify_connection_lost in H.
      destruct (stop_running _) as [p1|] eqn:Hs; simpl in H; [|discriminate H].
      apply stop_running_readouts in Hs.
      destruct (msgbox_reply e); injection H as <-; exact Hs.
    + injection H as <-. reflexivity.
    + injection H as <-. reflexivity.
    + unfold about_to_quit in H.
      destruct (stop_running _) as [p1|] eqn:Hs; simpl in H; [|discriminate H].
      apply stop_running_readouts in Hs.
      injection H as <-. exact Hs.
    + injection H as <-. unfold process_qpbt_record.
      destruct (qpbt_record_checked _); reflexivity.
    + injection H as <-. unfold process_qpbt_clear_chart.
      destruct (msgbox_reply e); reflexivity.
  - destruct sig; simpl; split; intros Hs;
      first [reflexivity | discriminate Hs | left; reflexivity
            | destruct Hs as [Hs|[]]; discriminate Hs].
Qed.

Lemma readouts_redrawn_on_DAQ_updated_witness :
  emit timer_chart_timeout (env_click Yes) "" after_first_poll
  = Some (update_chart (log_emit timer_chart_timeout after_first_poll))
  /\ timer_chart_timeout <> signal_DAQ_updated
  /\ readouts (window (update_chart
                         (log_emit timer_chart_timeout after_first_poll)))
     = readouts (window after_first_poll).
Proof.
  assert (He : emit timer_chart_timeout (env_click Yes) "" after_first_poll
               = Some (update_chart
                         (log_emit timer_chart_timeout after_first_poll)))
    by reflexivity.
  assert (Hne : timer_chart_timeout <> signal_DAQ_updated)
    by (intros H; discriminate H).
  split; [exact He|]. split; [exact Hne|].
  destruct (readouts_redrawn_on_DAQ_updated _ _ _ _ _ He) as (_ & Hkeep & _).
  exact (Hkeep Hne).
Defined.

(** * Further properties of the program *)

(** *** The acquisition function, inverted *)

Lemma DAQ_function_inv (e : Env) (p : Program) (ok : bool) (p' : Program) :
  DAQ_function e p = Some (ok, p') ->
  (ok = false /\ malformed (serial_reply e) /\ p' = after_query p)
  \/ (ok = true
      /\ exists t a b c d,
           five_fields e t a b c d
           /\ DAQ_logging e
                (DAQ_add_readings
                   (set_state (reading_of e a b c d) (after_query p)))
              = Some p').
Proof.
  intros H.
  destruct (poll_cases e) as [Hm|(t & a & b & c & d & H5)].
  - left. rewrite (DAQ_function_failed e p Hm) in H.
    injection H as <- <-. repeat split. exact Hm.
  - right. rewrite (DAQ_function_parsed e p t a b c d H5) in H.
    destruct (DAQ_logging e _) as [p1|] eqn:Hl; simpl in H; [|discriminate H].
    injection H as <- <-. split; [reflexivity|].
    exists t, a, b, c, d. split; [exact H5 | exact Hl].
Qed.

(** What the logging steps leave alone. *)
Lemma DAQ_logging_frame (e : Env) (p p' : Program) :
  DAQ_logging e p = Some p' ->
  state p' = state p
  /\ curves (window p') = curves (window p)
  /\ readouts (window p') = readouts (window p)
  /\ qlbl_title (window p') = qlbl_title (window p)
  /\ qpbt_record_checked (window p') = qpbt_record_checked (window p)
  /\ tsgwin_drawn (window p') = tsgwin_drawn (window p)
  /\ qdev_ard p' = qdev_ard p
  /\ ard p' = ard p
  /\ timer_chart_active p' = timer_chart_active p.
Proof.
  revert p'. logging_cases; intros p' H;
    first [discriminate H | injection H as <-]; repeat split.
Qed.

Lemma five_fields_not_malformed (e : Env) (t a b c d : float) :
  five_fields e t a b c d -> ~ malformed (serial_reply e).
Proof.
  intros [Hs Ht] [Hm|[[s Hm]|Hm]].
  - congruence.
  - rewrite Ht in Hm. simpl in Hm.
    repeat (destruct Hm as [Hm|Hm]; [discriminate Hm|]). exact Hm.
  - apply Hm. rewrite Ht. reflexivity.
Qed.

(** X1: on a well-formed logger the acquisition function never raises, and
    its answer tells exactly how the poll went: [True] if and only if the
    link reported success with exactly five numeric fields, [False] if and
    only if the reply was malformed. *)
Theorem DAQ_function_answer (e : Env) (p : Program) :
  logger_wf (file_logger p) ->
  exists ok p',
    DAQ_function e p = Some (ok, p')
    /\ (ok = true <-> exists t a b c d, five_fields e t a b c d)
    /\ (ok = false <-> malformed (serial_reply e)).
Proof.
  intros Hwf.
  destruct (DAQ_function_total e p Hwf) as (ok & p' & Hd & _).
  exists ok, p'. split; [exact Hd|].
  destruct (DAQ_function_inv e p ok p' Hd)
    as [(-> & Hm & _)|(-> & t & a & b & c & d & H5 & _)].
  - split; split; intros H; try discriminate H; try reflexivity; try exact Hm.
    destruct H as (t & a & b & c & d & H5).
    exfalso. exact (five_fields_not_malformed e _ _ _ _ _ H5 Hm).
  - split; split; intros H; try discriminate H; try reflexivity.
    + exists t, a, b, c, d. exact H5.
    + exfalso. exact (five_fields_not_malformed e _ _ _ _ _ H5 H).
Qed.

Lemma DAQ_function_answer_witness :
  logger_wf (file_logger main_init)
  /\ exists ok p',
       DAQ_function env_failed main_init = Some (ok, p')
       /\ (ok = true <-> exists t a b c d, five_fields env_failed t a b c d)
       /\ (ok = false <-> malformed (serial_reply env_failed)).
Proof.
  assert (Hwf : logger_wf (file_logger main_init))
    by (intros H; discriminate H).
  split; [exact Hwf|].
  exact (DAQ_function_answer env_failed main_init Hwf).
Defined.

(** *** Runs of failed polls *)

Lemma after_query_sent (p : Program) :
  sent (ard (after_query p)) = (sent (ard p) ++ ["?"])%list.
Proof. reflexivity. Qed.

(** X2: any run of failed polls leaves the Reading, the window with its
    curves, the logger with its pending requests, and the files as they
    were, and raises nothing; its only trace is one ["?"] sent to the
    device per poll. *)
Theorem failed_polls_only_query (fs : list Env) (p : Program) :
  Forall (fun f => malformed (serial_reply f)) fs ->
  exists p',
    DAQ_ticks fs p = Some p'
    /\ state p' = state p
    /\ window p' = window p
    /\ file_logger p' = file_logger p
    /\ disk p' = disk p
    /\ emitted p' = emitted p
    /\ sent (ard p') = (sent (ard p) ++ repeat "?" (length fs))%list.
Proof.
  revert p. induction fs as [|f fs IH]; intros p Hall; simpl.
  - exists p. rewrite app_nil_r. repeat split.
  - inversion Hall as [|f' fs' Hf Hfs]; subst.
    rewrite (DAQ_function_failed f p Hf).
    destruct (IH (after_query p) Hfs)
      as (p' & Ht & Hs & Hw & Hl & Hd & He & Hq).
    exists p'. split; [exact Ht|].
    split; [exact Hs|]. split; [exact Hw|]. split; [exact Hl|].
    split; [exact Hd|]. split; [exact He|].
    rewrite Hq, after_query_sent, <- app_assoc. reflexivity.
Qed.

Lemma failed_polls_only_query_witness :
  Forall (fun f => malformed (serial_reply f)) [env_failed; env_failed]
  /\ exists p',
       DAQ_ticks [env_failed; env_failed] (request_start main_init) = Some p'
       /\ file_logger p' = file_logger (request_start main_init)
       /\ disk p' = disk main_init
       /\ sent (ard p') = ["?"; "?"].
Proof.
  assert (Hm : malformed (serial_reply env_failed)) by (left; reflexivity).
  assert (Hall : Forall (fun f => malformed (serial_reply f))
                   [env_failed; env_failed]).
  { repeat (apply List.Forall_cons; [exact Hm|]). apply List.Forall_nil. }
  split; [exact Hall|].
  destruct (failed_polls_only_query [env_failed; env_failed]
              (request_start main_init) Hall)
    as (p' & Ht & _ & _ & Hl & Hd & _ & Hq).
  exists p'. split; [exact Ht|]. split; [exact Hl|].
  split; [exact Hd | exact Hq].
Defined.

(** *** Events as transitions *)

Lemma stop_running_frame (p p' : Program) :
  stop_running p = Some p' ->
  state p' = state p
  /\ window p' = window p
  /\ ard p' = ard p
  /\ emitted p' = emitted p
  /\ files (disk p') = files (disk p)
  /\ DAQ_running (qdev_ard p') = false
  /\ is_recording (file_logger p') = false
  /\ timer_chart_active p' = false
  /\ (is_recording (file_logger p) = false -> disk p' = disk p).
Proof.
  unfold stop_running, close_log.
  destruct p as [s w l q ar tc dk em]. destruct l as [st sp rec t0 fl].
  simpl. destruct rec; [destruct fl as [fn|]|]; simpl; intros H;
    first [discriminate H | injection H as <-]; simpl; repeat split;
    intros H; discriminate H.
Qed.

(** Whatever [handle] answers is one of the transitions. *)
Lemma handle_transition (ev : Event) (e : Env) (p p' : Program) :
  handle ev e p = Some p' -> transition e p ev p'.
Proof.
  destruct ev; simpl.
  - (* the worker's period *)
    unfold worker_DAQ_update.
    destruct (DAQ_running (qdev_ard p)) eqn:Hrun; simpl.
    2:{ intros H. injection H as <-. apply tr_nothing. }
    destruct (DAQ_function e p) as [[ok p1]|] eqn:Hd; simpl;
      [|intros H; discriminate H].
    destruct (_ <=? _)%nat.
    + rewrite emit_connection_lost. unfold notify_connection_lost.
      destruct (stop_running _) as [p2|] eqn:Hs; simpl;
        [|intros H; discriminate H].
      intros H.
      assert (Hp : p' = set_window (set_title lost_banner (window p2)) p2).
      { destruct (msgbox_reply e); injection H as <-; reflexivity. }
      rewrite Hp. exact (tr_lost e p ok p1 p2 _ Hrun Hd Hs).
    + rewrite emit_DAQ_updated. intros H. injection H as <-.
      exact (tr_updated e p ok p1 _ Hrun Hd).
  - destruct (timer_chart_active p); intros H; injection H as <-.
    + apply tr_chart.
    + apply tr_nothing.
  - intros H. injection H as <-. apply tr_record.
  - intros H. injection H as <-. apply tr_clear.
  - unfold emit. simpl. unfold about_to_quit.
    destruct (stop_running _) as [p1|] eqn:Hs; simpl;
      intros H; [|discriminate H].
    injection H as <-. exact (tr_quit e p p1 Hs).
Qed.

(** A property kept by every transition holds along every run. *)
Lemma run_invariant (P : Program -> Prop) :
  (forall ev e p p', P p -> transition e p ev p' -> P p') ->
  forall evs p p', P p -> run evs p = Some p' -> P p'.
Proof.
  intros Hstep evs. induction evs as [|[ev e] evs IH]; intros p p' HP; simpl.
  - intros H. injection H as <-. exact HP.
  - destruct (handle ev e p) as [p1|] eqn:Hh; simpl; [|intros H; discriminate H].
    apply IH. apply (Hstep ev e p p1 HP). apply handle_transition. exact Hh.
Qed.

(** *** What is sent to the device *)

Lemma DAQ_function_sent (e : Env) (p : Program) (ok : bool) (p' : Program) :
  DAQ_function e p = Some (ok, p') ->
  sent (ard p') = (sent (ard p) ++ ["?"])%list.
Proof.
  intros H.
  destruct (DAQ_function_inv e p ok p' H)
    as [(_ & _ & ->)|(_ & t & a & b & c & d & _ & Hl)].
  - reflexivity.
  - destruct (DAQ_logging_frame _ _ _ Hl) as (_ & _ & _ & _ & _ & _ & _ & Ha & _).
    rewrite Ha. reflexivity.
Qed.

Lemma transition_sent (e : Env) (p : Program) (ev : Event) (p' : Program) :
  transition e p ev p' ->
  sent (ard p') = sent (ard p)
  \/ (ev = ev_DAQ_timer /\ sent (ard p') = (sent (ard p) ++ ["?"])%list).
Proof.
  intros H. destruct H as [ev| | | |p1 Hs|ok p1 q' Hrun Hd|ok p1 p2 q' Hrun Hd Hs].
  - left. reflexivity.
  - left. reflexivity.
  - left. unfold process_qpbt_record.
    destruct (qpbt_record_checked _); reflexivity.
  - left. unfold process_qpbt_clear_chart.
    destruct (msgbox_reply e); reflexivity.
  - left. destruct (stop_running_frame _ _ Hs) as (_ & _ & Ha & _).
    simpl. rewrite Ha. reflexivity.
  - right. split; [reflexivity|]. simpl.
    exact (DAQ_function_sent e p ok p1 Hd).
  - right. split; [reflexivity|].
    destruct (stop_running_frame _ _ Hs) as (_ & _ & Ha & _).
    simpl. rewrite Ha. simpl.
    exact (DAQ_function_sent e p ok p1 Hd).
Qed.

(** X3: along any run of the event loop the program sends the device
    nothing but the command ["?"], and at most one per period of the
    acquisition worker: no click, chart time-out or termination routine
    ever writes to the device. *)
Theorem only_queries_are_sent
  (evs : list (Event * Env)) (p p' : Program) :
  run evs p = Some p' ->
  exists n : nat,
    n <= polls evs
    /\ sent (ard p') = (sent (ard p) ++ repeat "?" n)%list.
Proof.
  revert p. induction evs as [|[ev e] evs IH]; intros p; simpl.
  - intros H. injection H as <-. exists 0. split; [lia|].
    simpl. rewrite app_nil_r. reflexivity.
  - destruct (handle ev e p) as [p1|] eqn:Hh; simpl; [|intros H; discriminate H].
    intros Hr. destruct (IH p1 Hr) as (n & Hn & Hs).
    destruct (transition_sent e p ev p1 (handle_transition ev e p p1 Hh))
      as [Hq|[-> Hq]].
    + exists n. split; [destruct ev; lia|]. rewrite Hs, Hq. reflexivity.
    + exists (S n). split; [lia|].
      rewrite Hs, Hq, <- app_assoc. reflexivity.
Qed.

Lemma only_queries_are_sent_witness :
  let evs := [(ev_click_record, env_click Yes); (ev_DAQ_timer, env_ex0);
              (ev_timer_chart, env_click Yes); (ev_DAQ_timer, env_failed);
              (ev_aboutToQuit, env_click Yes); (ev_DAQ_timer, env_ex1)] in
  run evs main_init = Some (default main_init (run evs main_init))
  /\ exists n : nat,
       n <= 3
       /\ sent (ard (default main_init (run evs main_init)))
          = repeat "?" n.
Proof.
  intros evs.
  assert (Hr : run evs main_init = Some (default main_init (run evs main_init)))
    by (vm_compute; reflexivity).
  split; [exact Hr|].
  exact (only_queries_are_sent evs main_init _ Hr).
Defined.

(** *** The title *)

Lemma DAQ_function_title (e : Env) (p : Program) (ok : bool) (p' : Program) :
  DAQ_function e p = Some (ok, p') ->
  qlbl_title (window p') = qlbl_title (window p)
  /\ count_lost (emitted p') = count_lost (emitted p).
Proof.
  intros H.
  destruct (DAQ_function_inv e p ok p' H)
    as [(_ & _ & ->)|(_ & t & a & b & c & d & _ & Hl)].
  - split; reflexivity.
  - destruct (DAQ_logging_frame _ _ _ Hl) as (_ & _ & _ & Ht & _).
    rewrite Ht, (DAQ_logging_count_lost _ _ _ Hl). split; reflexivity.
Qed.

Lemma title_tells_step (ev : Event) (e : Env) (p p' : Program) :
  title_tells p -> transition e p ev p' -> title_tells p'.
Proof.
  unfold title_tells. intros HT H.
  destruct H as [ev| | | |p1 Hs|ok p1 q' Hrun Hd|ok p1 p2 q' Hrun Hd Hs].
  - exact HT.
  - simpl. rewrite count_lost_snoc_other by reflexivity. exact HT.
  - unfold process_qpbt_record.
    destruct (qpbt_record_checked _); simpl;
      rewrite count_lost_snoc_other by reflexivity; exact HT.
  - unfold process_qpbt_clear_chart.
    destruct (msgbox_reply e); simpl;
      rewrite count_lost_snoc_other by reflexivity; exact HT.
  - destruct (stop_running_frame _ _ Hs) as (_ & Hw & _ & He & _).
    simpl. rewrite Hw, He. simpl.
    rewrite count_lost_snoc_other by reflexivity. exact HT.
  - destruct (DAQ_function_title e p ok p1 Hd) as [Ht Hc].
    simpl. rewrite count_lost_snoc_other by reflexivity.
    rewrite Ht, Hc. exact HT.
  - destruct (stop_running_frame _ _ Hs) as (_ & _ & _ & He & _).
    simpl. rewrite He. simpl. rewrite count_lost_app. simpl.
    replace (count_lost (emitted p1) + 1 =? 0)%nat with false; [reflexivity|].
    symmetry. apply Nat.eqb_neq. lia.
Qed.

(** X4: in every program the event loop can reach, the window title is
    ["Uber-Monitor"] as long as "connection lost" has not fired, and the
    lost-connection banner from the moment it has: nothing else ever
    changes the title, and nothing removes the banner. *)
Theorem title_shows_lost_connection
  (evs : list (Event * Env)) (p : Program) :
  run evs main_init = Some p ->
  qlbl_title (window p)
  = if (count_lost (emitted p) =? 0)%nat then "Uber-Monitor" else lost_banner.
Proof.
  intros H.
  apply (run_invariant title_tells title_tells_step evs main_init p);
    [reflexivity | exact H].
Qed.

Lemma title_shows_lost_connection_witness :
  let evs := [(ev_DAQ_timer, env_failed); (ev_DAQ_timer, env_failed);
              (ev_DAQ_timer, env_failed); (ev_click_clear_chart, env_click Yes)] in
  run evs main_init = Some (default main_init (run evs main_init))
  /\ count_lost (emitted (default main_init (run evs main_init))) = 1
  /\ qlbl_title (window (default main_init (run evs main_init))) = lost_banner.
Proof.
  intros evs.
  assert (Hr : run evs main_init = Some (default main_init (run evs main_init)))
    by (vm_compute; reflexivity).
  assert (Hc : count_lost (emitted (default main_init (run evs main_init))) = 1)
    by (vm_compute; reflexivity).
  split; [exact Hr|]. split; [exact Hc|].
  rewrite (title_shows_lost_connection evs _ Hr), Hc. reflexivity.
Defined.

(** *** The four curves together *)

Lemma add_new_reading_times (x y : float) (c : HistoryChartCurve) :
  times (add_new_reading x y c)
  = drop (length (times c ++ [x]) - capacity c) (times c ++ [x])%list.
Proof.
  unfold times, add_new_reading. simpl.
  rewrite <- List.skipn_map, map_app, !length_app, length_map. reflexivity.
Qed.

Lemma add_new_reading_last (x y : float) (c : HistoryChartCurve) :
  0 < capacity c -> last (samples (add_new_reading x y c)) = Some (x, y).
Proof.
  intros H. unfold add_new_reading. simpl.
  rewrite length_app. simpl.
  rewrite drop_app_le by lia. apply last_snoc.
Qed.

(** What the acquisition function does to the curves. *)
Lemma DAQ_function_curves (e : Env) (p : Program) (ok : bool) (p' : Program) :
  DAQ_function e p = Some (ok, p') ->
  (ok = false /\ state p' = state p
   /\ curves (window p') = curves (window p))
  \/ (ok = true
      /\ time (state p') = perf_counter e
      /\ curves (window p')
         = [add_new_reading (time (state p')) (ds_temp (state p'))
              (tscurve_ds_temp (window p));
            add_new_reading (time (state p')) (bme_temp (state p'))
              (tscurve_bme_temp (window p));
            add_new_reading (time (state p')) (bme_humi (state p'))
              (tscurve_bme_humi (window p));
            add_new_reading (time (state p')) (bme_pres (state p'))
              (tscurve_bme_pres (window p))]).
Proof.
  intros H.
  destruct (DAQ_function_inv e p ok p' H)
    as [(-> & _ & ->)|(-> & t & a & b & c & d & _ & Hl)].
  - left. repeat split.
  - right. destruct (DAQ_logging_frame _ _ _ Hl) as (Hs & Hc & _).
    rewrite Hs, Hc. repeat split.
Qed.

Lemma aligned_add (x y1 y2 y3 y4 : float) (c1 c2 c3 c4 : HistoryChartCurve) :
  aligned [c1; c2; c3; c4] ->
  aligned [add_new_reading x y1 c1; add_new_reading x y2 c2;
           add_new_reading x y3 c3; add_new_reading x y4 c4].
Proof.
  intros [Hcap [ts Hts]].
  assert (Hone : forall (y : float) (c : HistoryChartCurve),
             capacity c = num_samples /\ length (samples c) <= num_samples ->
             times c = ts ->
             (capacity (add_new_reading x y c) = num_samples
              /\ length (samples (add_new_reading x y c)) <= num_samples)
             /\ times (add_new_reading x y c)
                = drop (length (ts ++ [x]) - num_samples) (ts ++ [x])%list).
  { intros y c [Hc Hl] Ht. split; [split|].
    - exact Hc.
    - rewrite <- Hc. apply add_new_reading_bounded.
    - rewrite add_new_reading_times, Ht, Hc. reflexivity. }
  inversion Hcap as [|? ? H1 Hcap1]; subst.
  inversion Hcap1 as [|? ? H2 Hcap2]; subst.
  inversion Hcap2 as [|? ? H3 Hcap3]; subst.
  inversion Hcap3 as [|? ? H4 _]; subst.
  inversion Hts as [|? ? T1 Hts1]; subst.
  inversion Hts1 as [|? ? T2 Hts2]; subst.
  inversion Hts2 as [|? ? T3 Hts3]; subst.
  inversion Hts3 as [|? ? T4 _]; subst.
  split.
  - repeat (apply List.Forall_cons; [apply Hone; [assumption|congruence]|]).
    apply List.Forall_nil.
  - eexists.
    repeat (apply List.Forall_cons; [apply Hone; [assumption|congruence]|]).
    apply List.Forall_nil.
Qed.

Lemma aligned_clear (c1 c2 c3 c4 : HistoryChartCurve) :
  aligned [c1; c2; c3; c4] ->
  aligned [clear_curve c1; clear_curve c2; clear_curve c3; clear_curve c4].
Proof.
  intros [Hcap _].
  inversion Hcap as [|? ? [H1 _] Hcap1]; subst.
  inversion Hcap1 as [|? ? [H2 _] Hcap2]; subst.
  inversion Hcap2 as [|? ? [H3 _] Hcap3]; subst.
  inversion Hcap3 as [|? ? [H4 _] _]; subst.
  split.
  - repeat (apply List.Forall_cons; [split; [assumption|simpl; lia]|]).
    apply List.Forall_nil.
  - exists []. repeat (apply List.Forall_cons; [reflexivity|]).
    apply List.Forall_nil.
Qed.

Lemma aligned_step (ev : Event) (e : Env) (p p' : Program) :
  aligned (curves (window p)) ->
  transition e p ev p' ->
  aligned (curves (window p')).
Proof.
  intros HA H.
  assert (Hdaq : forall ok p1,
             DAQ_function e p = Some (ok, p1) -> aligned (curves (window p1))).
  { intros ok p1 Hd.
    destruct (DAQ_function_curves e p ok p1 Hd) as [(_ & _ & Hc)|(_ & _ & Hc)];
      rewrite Hc; [exact HA | apply aligned_add; exact HA]. }
  destruct H as [ev| | | |p1 Hs|ok p1 q' Hrun Hd|ok p1 p2 q' Hrun Hd Hs].
  - exact HA.
  - exact HA.
  - unfold process_qpbt_record.
    destruct (qpbt_record_checked _); exact HA.
  - unfold process_qpbt_clear_chart.
    destruct (msgbox_reply e); [apply aligned_clear| |]; exact HA.
  - destruct (stop_running_frame _ _ Hs) as (_ & Hw & _).
    simpl. rewrite Hw. exact HA.
  - exact (Hdaq ok p1 Hd).
  - destruct (stop_running_frame _ _ Hs) as (_ & Hw & _).
    change (aligned (curves (window p2))). rewrite Hw.
    exact (Hdaq ok p1 Hd).
Qed.

(** X5: in every program the event loop can reach, the four chart curves
    have the capacity [num_samples], hold at most that many samples, and
    carry the same time stamps in the same order: every poll adds one
    sample with one common time to each of them, and a clear empties them
    together. *)
Theorem curves_share_time_axis (evs : list (Event * Env)) (p : Program) :
  run evs main_init = Some p ->
  Forall (fun c => capacity c = num_samples
                   /\ length (samples c) <= num_samples)
    (curves (window p))
  /\ exists ts : list float,
       Forall (fun c => times c = ts) (curves (window p)).
Proof.
  intros H.
  apply (run_invariant (fun q => aligned (curves (window q))) aligned_step
           evs main_init p); [|exact H].
  split.
  - repeat (apply List.Forall_cons; [split; [reflexivity|simpl; lia]|]).
    apply List.Forall_nil.
  - exists []. repeat (apply List.Forall_cons; [reflexivity|]).
    apply List.Forall_nil.
Qed.

Lemma curves_share_time_axis_witness :
  let evs := [(ev_DAQ_timer, env_ex0); (ev_DAQ_timer, env_failed);
              (ev_DAQ_timer, env_ex1)] in
  run evs main_init = Some (default main_init (run evs main_init))
  /\ map times (curves (window (default main_init (run evs main_init))))
     = [[0; 1]; [0; 1]; [0; 1]; [0; 1]]%float
  /\ exists ts : list float,
       Forall (fun c => times c = ts)
         (curves (window (default main_init (run evs main_init)))).
Proof.
  intros evs.
  assert (Hr : run evs main_init = Some (default main_init (run evs main_init)))
    by (vm_compute; reflexivity).
  split; [exact Hr|]. split; [vm_compute; reflexivity|].
  destruct (curves_share_time_axis evs _ Hr) as [_ Hts]. exact Hts.
Defined.

(** X6: when the acquisition function answers [True] and the curves have
    room for at least one sample, the newest sample of each curve is the
    Reading it has just stored: its time with, in turn, the DS18B20
    temperature, the BME280 temperature, the humidity and the pressure. *)
Theorem newest_samples_are_the_reading
  (e : Env) (p p' : Program) :
  DAQ_function e p = Some (true, p') ->
  Forall (fun c => 0 < capacity c) (curves (window p)) ->
  map (fun c => last (samples c)) (curves (window p'))
  = [Some (time (state p'), ds_temp (state p'));
     Some (time (state p'), bme_temp (state p'));
     Some (time (state p'), bme_humi (state p'));
     Some (time (state p'), bme_pres (state p'))].
Proof.
  intros Hd Hcap.
  destruct (DAQ_function_curves e p true p' Hd) as [(Hf & _)|(_ & _ & Hc)];
    [discriminate Hf|].
  rewrite Hc. cbn [map]. unfold curves in Hcap.
  inversion Hcap as [|? ? H1 Hcap1]; subst.
  inversion Hcap1 as [|? ? H2 Hcap2]; subst.
  inversion Hcap2 as [|? ? H3 Hcap3]; subst.
  inversion Hcap3 as [|? ? H4 _]; subst.
  rewrite !add_new_reading_last by assumption. reflexivity.
Qed.

Lemma newest_samples_are_the_reading_witness :
  DAQ_function env_ex1 after_first_poll
  = Some (true, default main_init
                  (snd <$> DAQ_function env_ex1 after_first_poll))
  /\ Forall (fun c => 0 < capacity c) (curves (window after_first_poll))
  /\ map (fun c => last (samples c))
       (curves (window (default main_init
                          (snd <$> DAQ_function env_ex1 after_first_poll))))
     = [Some (1, 20.1); Some (1, 21.1); Some (1, 45.1);
        Some (1, 101326 / 1e5)]%float.
Proof.
  assert (Hd : DAQ_function env_ex1 after_first_poll
               = Some (true, default main_init
                               (snd <$> DAQ_function env_ex1 after_first_poll)))
    by (vm_compute; reflexivity).
  assert (Hc : Forall (fun c => 0 < capacity c)
                 (curves (window after_first_poll))).
  { repeat (apply List.Forall_cons; [vm_compute; lia|]). apply List.Forall_nil. }
  split; [exact Hd|]. split; [exact Hc|].
  rewrite (newest_samples_are_the_reading _ _ _ Hd Hc).
  vm_compute. reflexivity.
Defined.

(** *** Stopping *)

(** X7: the routine that stops the program can safely run twice, as it
    does when the application quits after the connection was lost: once it
    has run, running it again raises nothing and changes nothing, so the
    log file is not closed a second time. *)
Theorem stop_running_twice (p p1 : Program) :
  stop_running p = Some p1 -> stop_running p1 = Some p1.
Proof.
  unfold stop_running, close_log.
  destruct p as [s w l q ar tc dk em]. destruct l as [st sp rec t0 fl].
  destruct q as [uc rate tally crit running].
  simpl. destruct rec; [destruct fl as [fn|]|]; simpl; intros H;
    first [discriminate H | injection H as <-]; reflexivity.
Qed.

Lemma stop_running_twice_witness :
  stop_running recording_example
  = Some (default main_init (stop_running recording_example))
  /\ ops (disk (default main_init (stop_running recording_example)))
     = (ops (disk recording_example) ++ [op_close "261103_100000.txt"])%list
  /\ stop_running (default main_init (stop_running recording_example))
     = Some (default main_init (stop_running recording_example)).
Proof.
  assert (H : stop_running recording_example
              = Some (default main_init (stop_running recording_example)))
    by (vm_compute; reflexivity).
  split; [exact H|]. split; [vm_compute; reflexivity|].
  exact (stop_running_twice _ _ H).
Defined.

Lemma stop_running_idle (p : Program) :
  is_recording (file_logger p) = false ->
  exists p', stop_running p = Some p'.
Proof.
  unfold stop_running, close_log.
  destruct p as [s w l q ar tc dk em]. simpl. intros H. rewrite H. simpl.
  eexists. reflexivity.
Qed.

Lemma stopped_step (ev : Event) (e : Env) (p : Program) :
  stopped p ->
  exists p',
    handle ev e p = Some p'
    /\ stopped p'
    /\ disk p' = disk p
    /\ sent (ard p') = sent (ard p)
    /\ state p' = state p.
Proof.
  intros [Hrun Hrec]. destruct ev; simpl.
  - unfold worker_DAQ_update. rewrite Hrun. simpl.
    exists p. repeat split; assumption.
  - destruct (timer_chart_active p); eexists; (split; [reflexivity|]);
      repeat split; assumption.
  - eexists. split; [reflexivity|]. unfold stopped, process_qpbt_record.
    destruct (qpbt_record_checked _); simpl; repeat split; assumption.
  - eexists. split; [reflexivity|]. unfold stopped, process_qpbt_clear_chart.
    destruct (msgbox_reply e); simpl; repeat split; assumption.
  - destruct (stop_running_idle (log_emit app_aboutToQuit p) Hrec)
      as [p1 Hs].
    destruct (stop_running_frame _ _ Hs)
      as (Hst & _ & Ha & _ & _ & Hr1 & Hc1 & _ & Hdk).
    exists (set_ard (ard_close (ard p1)) p1).
    split; [unfold emit; simpl; unfold about_to_quit; rewrite Hs; reflexivity|].
    split; [split; assumption|].
    split; [exact (Hdk Hrec)|]. split; [simpl; rewrite Ha; reflexivity|].
    exact Hst.
Qed.

(** X8: once the program has stopped (the worker is halted and no file is
    being recorded, as after the connection is lost or on quitting), no
    event whatever raises, writes, opens or closes a file, sends anything
    to the device, or changes the Reading: the window is left for
    inspection with the last Reading in place. *)
Theorem stopped_program_is_frozen (evs : list (Event * Env)) (p : Program) :
  stopped p ->
  exists p',
    run evs p = Some p'
    /\ stopped p'
    /\ disk p' = disk p
    /\ sent (ard p') = sent (ard p)
    /\ state p' = state p.
Proof.
  revert p. induction evs as [|[ev e] evs IH]; intros p Hs; simpl.
  - exists p. repeat split; apply Hs.
  - destruct (stopped_step ev e p Hs) as (p1 & Hh & Hs1 & Hd1 & Ha1 & Hst1).
    rewrite Hh. simpl.
    destruct (IH p1 Hs1) as (p' & Hr & Hs' & Hd' & Ha' & Hst').
    exists p'. split; [exact Hr|]. split; [exact Hs'|].
    split; [congruence|]. split; congruence.
Qed.

Lemma stopped_program_is_frozen_witness :
  let p := default main_init (stop_running recording_example) in
  let evs := [(ev_click_record, env_click Yes); (ev_DAQ_timer, env_ex1);
              (ev_click_clear_chart, env_click Yes);
              (ev_aboutToQuit, env_click Yes)] in
  stopped p
  /\ exists p',
       run evs p = Some p'
       /\ disk p' = disk p
       /\ sent (ard p') = ["?"]
       /\ state p' = state recording_example.
Proof.
  intros p evs.
  assert (Hs : stopped p) by (split; vm_compute; reflexivity).
  split; [exact Hs|].
  destruct (stopped_program_is_frozen evs p Hs)
    as (p' & Hr & _ & Hd & Ha & Hst).
  exists p'. split; [exact Hr|]. split; [exact Hd|].
  split; [exact Ha | exact Hst].
Defined.

(** X9: when the connection is lost, the handler halts the worker, stops
    the chart timer, closes the log file if one is being recorded (one
    close, the text kept) and performs no file operation otherwise, shows
    the banner, and leaves the Reading, the curves, the readouts and the
    device link as they are: the link is not closed and the program is
    stopped, not ended. *)
Theorem notify_connection_lost_effects (e : Env) (p : Program) :
  logger_wf (file_logger p) ->
  exists p',
    notify_connection_lost e p = Some p'
    /\ stopped p'
    /\ timer_chart_active p' = false
    /\ qlbl_title (window p') = lost_banner
    /\ files (disk p') = files (disk p)
    /\ ops (disk p')
       = (ops (disk p)
          ++ match open_file (file_logger p) with
             | Some fn => [op_close fn]
             | None => []
             end)%list
    /\ state p' = state p
    /\ curves (window p') = curves (window p)
    /\ readouts (window p') = readouts (window p)
    /\ ard p' = ard p.
Proof.
  intros Hwf.
  unfold notify_connection_lost, stop_running, close_log, open_file,
    logger_wf in *.
  destruct p as [s w l q ar tc dk em]. destruct l as [st sp rec t0 fl].
  simpl in *.
  destruct rec; [destruct (Hwf eq_refl) as [fn ->]|]; simpl;
    destruct (msgbox_reply e); eexists; (split; [reflexivity|]);
    simpl; rewrite ?app_nil_r; repeat split.
Qed.

Lemma notify_connection_lost_effects_witness :
  logger_wf (file_logger recording_example)
  /\ exists p',
       notify_connection_lost env_failed recording_example = Some p'
       /\ stopped p'
       /\ qlbl_title (window p') = lost_banner
       /\ ops (disk p')
          = (ops (disk recording_example)
             ++ [op_close "261103_100000.txt"])%list
       /\ ard p' = ard recording_example.
Proof.
  assert (Hwf : logger_wf (file_logger recording_example)).
  { intros _. exists "261103_100000.txt". vm_compute. reflexivity. }
  split; [exact Hwf|].
  destruct (notify_connection_lost_effects env_failed recording_example Hwf)
    as (p' & Hn & Hs & _ & Ht & _ & Ho & _ & _ & _ & Ha).
  exists p'. split; [exact Hn|]. split; [exact Hs|]. split; [exact Ht|].
  split; [exact Ho | exact Ha].
Defined.

(** *** The order of file operations *)

Lemma replay_snoc (os : list FileOp) (o : FileOp) :
  replay (os ++ [o]) = file_step (replay os) o.
Proof. unfold replay. rewrite fold_left_app. reflexivity. Qed.

Lemma DAQ_logging_replay (e : Env) (p p' : Program) :
  replay (ops (disk p)) = Some (open_file (file_logger p)) ->
  DAQ_logging e p = Some p' ->
  replay (ops (disk p')) = Some (open_file (file_logger p')).
Proof.
  unfold open_file. revert p'.
  logging_cases; intros p' HR H;
    first [discriminate H | injection H as <-]; simpl;
    unfold py_close, py_write, py_open; simpl;
    rewrite ?replay_snoc, HR;
    repeat (progress (simpl; rewrite ?String.eqb_refl)); reflexivity.
Qed.

Lemma DAQ_function_replay (e : Env) (p : Program) (ok : bool) (p' : Program) :
  replay (ops (disk p)) = Some (open_file (file_logger p)) ->
  DAQ_function e p = Some (ok, p') ->
  replay (ops (disk p')) = Some (open_file (file_logger p')).
Proof.
  intros HR H.
  destruct (DAQ_function_inv e p ok p' H)
    as [(_ & _ & ->)|(_ & t & a & b & c & d & _ & Hl)].
  - exact HR.
  - refine (DAQ_logging_replay e _ p' _ Hl). exact HR.
Qed.

Lemma stop_running_replay (p p' : Program) :
  replay (ops (disk p)) = Some (open_file (file_logger p)) ->
  stop_running p = Some p' ->
  replay (ops (disk p')) = Some (open_file (file_logger p')).
Proof.
  unfold stop_running, close_log, open_file.
  destruct p as [s w l q ar tc dk em]. destruct l as [st sp rec t0 fl].
  simpl. destruct rec; [destruct fl as [fn|]|]; simpl; intros HR H;
    first [discriminate H | injection H as <-]; simpl;
    rewrite ?replay_snoc, ?HR;
    repeat (progress (simpl; rewrite ?String.eqb_refl)); reflexivity.
Qed.

Lemma replay_step (ev : Event) (e : Env) (p p' : Program) :
  replay (ops (disk p)) = Some (open_file (file_logger p)) ->
  transition e p ev p' ->
  replay (ops (disk p')) = Some (open_file (file_logger p')).
Proof.
  intros HR H.
  destruct H as [ev| | | |p1 Hs|ok p1 q' Hrun Hd|ok p1 p2 q' Hrun Hd Hs].
  - exact HR.
  - exact HR.
  - unfold process_qpbt_record.
    destruct (qpbt_record_checked _); exact HR.
  - unfold process_qpbt_clear_chart.
    destruct (msgbox_reply e); exact HR.
  - change (replay (ops (disk p1)) = Some (open_file (file_logger p1))).
    apply (stop_running_replay (log_emit app_aboutToQuit p) p1);
      [exact HR | exact Hs].
  - exact (DAQ_function_replay e p ok p1 HR Hd).
  - change (replay (ops (disk p2)) = Some (open_file (file_logger p2))).
    apply (stop_running_replay
             (log_emit signal_connection_lost (set_qdev q' p1)) p2);
      [|exact Hs].
    exact (DAQ_function_replay e p ok p1 HR Hd).
Qed.

(** X10: in every program the event loop can reach, the whole history of
    file operations obeys the open / write / close protocol: at most one
    file is open at a time, every write and every close goes to the file
    that is open, nothing is written after a close, and the file the
    history leaves open is exactly the one the logger says it is
    recording (none when it is idle). *)
Theorem file_operations_follow_protocol
  (evs : list (Event * Env)) (p : Program) :
  run evs main_init = Some p ->
  replay (ops (disk p)) = Some (open_file (file_logger p)).
Proof.
  intros H.
  apply (run_invariant
           (fun q => replay (ops (disk q)) = Some (open_file (file_logger q)))
           replay_step evs main_init p); [reflexivity | exact H].
Qed.

Lemma file_operations_follow_protocol_witness :
  let evs := [(ev_click_record, env_click Yes); (ev_DAQ_timer, env_ex0);
              (ev_DAQ_timer, env_failed); (ev_DAQ_timer, env_ex1);
              (ev_click_record, env_click Yes); (ev_DAQ_timer, env_ex2);
              (ev_click_record, env_click Yes); (ev_DAQ_timer, env_ex1)] in
  run evs main_init = Some (default main_init (run evs main_init))
  /\ length (ops (disk (default main_init (run evs main_init)))) = 8
  /\ replay (ops (disk (default main_init (run evs main_init))))
     = Some (Some "261103_100001.txt").
Proof.
  intros evs.
  assert (Hr : run evs main_init = Some (default main_init (run evs main_init)))
    by (vm_compute; reflexivity).
  split; [exact Hr|]. split; [vm_compute; reflexivity|].
  rewrite (file_operations_follow_protocol evs _ Hr).
  vm_compute. reflexivity.
Defined.

(** *** Which file a tick touches *)




(** *** Starting on a file that exists *)

(** X12: the log file is opened in mode ["w"]: a session that starts on a
    date-time stamp whose file already exists (a second start within the
    same second) replaces that file; whatever text it held, after the
    tick it holds the header and the first data line only. *)
Theorem session_start_replaces_file
  (e : Env) (p : Program) (t a b c d : float) (old : string) :
  is_recording (file_logger p) = false ->
  starting (file_logger p) = true ->
  stopping (file_logger p) = false ->
  five_fields e t a b c d ->
  let fn := yyMMdd_HHmmss (currentDateTime e) +:+ ".txt" in
  files (disk p) !! fn = Some old ->
  exists p',
    DAQ_function e p = Some (true, p')
    /\ files (disk p') !! fn
       = Some (log_header
               +:+ log_line (perf_counter e - perf_counter e) a b c (d / 1e5))
    /\ ops (disk p')
       = (ops (disk p)
          ++ [op_open fn "w"; op_write fn log_header;
              op_write fn
                (log_line (perf_counter e - perf_counter e) a b c (d / 1e5))])%list.
Proof.
  intros Hr Hs Hp H5 fn Hold.
  destruct (session_start_tick e p t a b c d Hr Hs Hp H5) as (p' & Hd & _ & Hf).
  exists p'. split; [exact Hd|]. split.
  - fold fn in Hf. rewrite Hf. unfold session_line.
    rewrite (poll_values_five_fields e t a b c d H5). reflexivity.
  - rewrite (DAQ_function_parsed e p t a b c d H5) in Hd.
    destruct p as [s w l q ar tc dk em]. destruct l as [st sp rec t0 fl].
    simpl in Hr, Hs, Hp. subst st sp rec.
    rewrite DAQ_polled, DAQ_logging_start in Hd.
    injection Hd as <-. simpl. rewrite <- !app_assoc. reflexivity.
Qed.

Lemma session_start_replaces_file_witness :
  let p := request_start
             (default main_init
                (snd <$> DAQ_function env_ex1 (request_stop recording_example))) in
  is_recording (file_logger p) = false
  /\ starting (file_logger p) = true
  /\ stopping (file_logger p) = false
  /\ five_fields env_ex0 0 20.0 21.0 45.0 101325
  /\ files (disk p) !! "261103_100000.txt"
     = Some (log_header +:+ session_line 0 env_ex0)
  /\ exists p',
       DAQ_function env_ex0 p = Some (true, p')
       /\ files (disk p') !! "261103_100000.txt"
          = Some (log_header +:+ log_line (0 - 0) 20.0 21.0 45.0 (101325 / 1e5)).
Proof.
  intros p.
  assert (H5 : five_fields env_ex0 0 20.0 21.0 45.0 101325)
    by (split; reflexivity).
  assert (Hold : files (disk p) !! "261103_100000.txt"
                 = Some (log_header +:+ session_line 0 env_ex0))
    by (vm_compute; reflexivity).
  repeat (split; [first [reflexivity | assumption]|]).
  destruct (session_start_replaces_file env_ex0 p _ _ _ _ _ _
              eq_refl eq_refl eq_refl H5 Hold) as (p' & Hd & Hf & _).
  exists p'. split; [exact Hd | exact Hf].
Defined.

(** *** The readouts after a poll *)

(** X13: in any program the event loop has reached with its worker still
    polling, a period of the worker whose poll succeeds leaves the five
    Reading readouts showing the Reading just stored (host time and the
    temperatures and humidity with one decimal, the pressure in bar with
    three) and the date and time readout showing the current date and
    time. *)
Theorem successful_tick_refreshes_readouts
  (pre : list (Event * Env)) (p : Program) (e : Env) (t a b c d : float) :
  run pre main_init = Some p ->
  DAQ_running (qdev_ard p) = true ->
  five_fields e t a b c d ->
  exists p',
    handle ev_DAQ_timer e p = Some p'
    /\ state p' = mkState (perf_counter e) a b c (d / 1e5)
    /\ qlin_reading_time (window p') = Py.format_f 1 (perf_counter e)
    /\ qlin_reading_ds_temp (window p') = Py.format_f 1 a
    /\ qlin_reading_bme_temp (window p') = Py.format_f 1 b
    /\ qlin_reading_bme_humi (window p') = Py.format_f 1 c
    /\ qlin_reading_bme_pres (window p') = Py.format_f 3 (d / 1e5)
    /\ qlbl_cur_date_time (window p')
       = dd_MM_yyyy (currentDateTime e) +:+ "    "
         +:+ HH_mm_ss (currentDateTime e).
Proof.
  intros Hpre Hrun H5.
  pose proof (run_reaches_Inv pre p Hpre) as [Hwf Hcrit _ _].
  destruct (DAQ_function_success e p t a b c d H5 Hwf)
    as (p1 & Hd & _ & _ & Hst & _ & _ & Hq & _).
  simpl. unfold worker_DAQ_update. rewrite Hrun, Hd. simpl.
  rewrite Hq, Hcrit. simpl. rewrite emit_DAQ_updated.
  eexists. split; [reflexivity|].
  simpl. rewrite Hst. repeat split.
Qed.

Lemma successful_tick_refreshes_readouts_witness :
  run [(ev_DAQ_timer, env_failed)] main_init
  = Some (default main_init (run [(ev_DAQ_timer, env_failed)] main_init))
  /\ five_fields env_ex1 1000 20.1 21.1 45.1 101326
  /\ exists p',
       handle ev_DAQ_timer env_ex1
         (default main_init (run [(ev_DAQ_timer, env_failed)] main_init))
       = Some p'
       /\ qlin_reading_time (window p') = "1.0"
       /\ qlin_reading_ds_temp (window p') = "20.1"
       /\ qlin_reading_bme_pres (window p') = "1.013"
       /\ qlbl_cur_date_time (window p') = "03-11-2026    10:00:00".
Proof.
  assert (Hpre : run [(ev_DAQ_timer, env_failed)] main_init
                 = Some (default main_init
                           (run [(ev_DAQ_timer, env_failed)] main_init)))
    by (vm_compute; reflexivity).
  assert (H5 : five_fields env_ex1 1000 20.1 21.1 45.1 101326)
    by (split; reflexivity).
  split; [exact Hpre|]. split; [exact H5|].
  destruct (successful_tick_refreshes_readouts _ _ env_ex1 _ _ _ _ _
              Hpre eq_refl H5)
    as (p' & Hh & _ & Ht & Hds & _ & _ & Hpr & Hdt).
  exists p'. split; [exact Hh|].
  rewrite Ht, Hds, Hpr, Hdt.
  repeat split; vm_compute; reflexivity.
Defined.

(** *** The record toggle, pressed and released *)

Lemma click_record_unchecked (p : Program) :
  qpbt_record_checked (window p) = false ->
  file_logger (click_record p)
  = mkLogger true (stopping (file_logger p)) (is_recording (file_logger p))
      (start_time (file_logger p)) (f_log (file_logger p))
  /\ qpbt_record_checked (window (click_record p)) = true.
Proof.
  intros H. unfold click_record, process_qpbt_record, toggle_record_button.
  simpl. rewrite H. simpl. split; reflexivity.
Qed.

Lemma click_record_checked (p : Program) :
  qpbt_record_checked (window p) = true ->
  file_logger (click_record p)
  = mkLogger (starting (file_logger p)) true (is_recording (file_logger p))
      (start_time (file_logger p)) (f_log (file_logger p))
  /\ qpbt_record_checked (window (click_record p)) = false.
Proof.
  intros H. unfold click_record, process_qpbt_record, toggle_record_button.
  simpl. rewrite H. simpl. split; reflexivity.
Qed.

Lemma click_record_frame (p : Program) :
  disk (click_record p) = disk p
  /\ state (click_record p) = state p
  /\ curves (window (click_record p)) = curves (window p)
  /\ qpbt_record_text (window (click_record p)) = qpbt_record_text (window p).
Proof.
  unfold click_record, process_qpbt_record, toggle_record_button. simpl.
  destruct (negb _); repeat split.
Qed.

(** X14: from an idle logger with the record toggle released, pressing
    the toggle and then releasing it, each click followed by a successful
    poll, makes one complete session: after the first poll the logger is
    recording, the toggle is pressed and reads "Recording to file: " with
    the file name; after the second the logger is idle again, the toggle
    is released and reads "Click to start recording to file"; and the file
    operations of the whole round are open, header, one data line,
    close. *)
Theorem record_toggle_round_trip
  (p : Program) (e1 e2 : Env) (t a b c d t' a' b' c' d' : float) :
  idle p ->
  qpbt_record_checked (window p) = false ->
  five_fields e1 t a b c d ->
  five_fields e2 t' a' b' c' d' ->
  let fn := yyMMdd_HHmmss (currentDateTime e1) +:+ ".txt" in
  exists p1 p2,
    DAQ_function e1 (click_record p) = Some (true, p1)
    /\ is_recording (file_logger p1) = true
    /\ qpbt_record_checked (window p1) = true
    /\ qpbt_record_text (window p1) = "Recording to file: " +:+ fn
    /\ DAQ_function e2 (click_record p1) = Some (true, p2)
    /\ idle p2
    /\ qpbt_record_checked (window p2) = false
    /\ qpbt_record_text (window p2) = "Click to start recording to file"
    /\ ops (disk p2)
       = (ops (disk p)
          ++ [op_open fn "w"; op_write fn log_header;
              op_write fn
                (log_line (perf_counter e1 - perf_counter e1) a b c (d / 1e5));
              op_close fn])%list.
Proof.
  intros (Hr & Hs & Hp) Hchk H5 H5' fn.
  destruct p as [s w l q ar tc dk em]. destruct l as [st sp rec t0 fl].
  simpl in Hr, Hs, Hp, Hchk. subst st sp rec.
  assert (Hc1 : click_record
                  (mkProgram s w (mkLogger false false false t0 fl)
                     q ar tc dk em)
                = mkProgram s (set_record_button (qpbt_record_text w) true w)
                    (mkLogger true false false t0 fl) q ar tc dk em).
  { unfold click_record, process_qpbt_record, toggle_record_button. simpl.
    rewrite Hchk. reflexivity. }
  rewrite Hc1, (DAQ_function_parsed e1 _ t a b c d H5).
  rewrite DAQ_polled, DAQ_logging_start. fold fn.
  match goal with |- context [Some ?x ≫= _] => set (p1 := x) end.
  exists p1.
  assert (Hc2 : exists w1 dk1 em1,
             click_record p1
             = mkProgram (reading_of e1 a b c d) w1
                 (mkLogger false true true (perf_counter e1) (Some fn))
                 q (mkArduino (ard_name ar) (is_alive ar)
                      (sent ar ++ ["?"])%list) tc dk1 em1
             /\ qpbt_record_checked w1 = false
             /\ ops dk1
                = (ops dk ++ [op_open fn "w"; op_write fn log_header;
                              op_write fn
                                (log_line (perf_counter e1 - perf_counter e1)
                                   a b c (d / 1e5))])%list).
  { eexists; eexists; eexists. split; [reflexivity|].
    split; [reflexivity|]. simpl. rewrite <- !app_assoc. reflexivity. }
  destruct Hc2 as (w1 & dk1 & em1 & Hc2 & Hw1 & Ho1).
  rewrite Hc2, (DAQ_function_parsed e2 _ t' a' b' c' d' H5').
  rewrite DAQ_polled, DAQ_logging_stop.
  eexists. split; [reflexivity|].
  split; [reflexivity|]. split; [reflexivity|]. split; [reflexivity|].
  split; [reflexivity|]. split; [repeat split|].
  split; [exact Hw1|]. split; [reflexivity|].
  simpl. rewrite Ho1, <- !app_assoc. reflexivity.
Qed.

Lemma record_toggle_round_trip_witness :
  idle main_init
  /\ qpbt_record_checked (window main_init) = false
  /\ five_fields env_ex0 0 20.0 21.0 45.0 101325
  /\ five_fields env_ex1 1000 20.1 21.1 45.1 101326
  /\ exists p1 p2,
       DAQ_function env_ex0 (click_record main_init) = Some (true, p1)
       /\ qpbt_record_text (window p1)
          = "Recording to file: 261103_100000.txt"
       /\ DAQ_function env_ex1 (click_record p1) = Some (true, p2)
       /\ qpbt_record_text (window p2) = "Click to start recording to file"
       /\ length (ops (disk p2)) = 4.
Proof.
  assert (Hi : idle main_init) by (repeat split).
  assert (H0 : five_fields env_ex0 0 20.0 21.0 45.0 101325)
    by (split; reflexivity).
  assert (H1 : five_fields env_ex1 1000 20.1 21.1 45.1 101326)
    by (split; reflexivity).
  split; [exact Hi|]. split; [reflexivity|]. split; [exact H0|].
  split; [exact H1|].
  destruct (record_toggle_round_trip main_init env_ex0 env_ex1
              _ _ _ _ _ _ _ _ _ _ Hi eq_refl H0 H1)
    as (p1 & p2 & Hd1 & _ & _ & Ht1 & Hd2 & _ & _ & Ht2 & Ho).
  exists p1, p2. split; [exact Hd1|]. split; [exact Ht1|].
  split; [exact Hd2|]. split; [exact Ht2|].
  rewrite Ho. reflexivity.
Defined.

(** *** Before the first successful poll *)

Lemma transition_state (e : Env) (p : Program) (ev : Event) (p' : Program) :
  transition e p ev p' ->
  (ev = ev_DAQ_timer -> malformed (serial_reply e)) ->
  state p' = state p.
Proof.
  intros H Hm.
  assert (Hdaq : forall ok p1,
             DAQ_function e p = Some (ok, p1) ->
             malformed (serial_reply e) -> state p1 = state p).
  { intros ok p1 Hd Hmal.
    rewrite (DAQ_function_failed e p Hmal) in Hd.
    injection Hd as _ <-. reflexivity. }
  destruct H as [ev| | | |p1 Hs|ok p1 q' Hrun Hd|ok p1 p2 q' Hrun Hd Hs].
  - reflexivity.
  - reflexivity.
  - unfold process_qpbt_record.
    destruct (qpbt_record_checked _); reflexivity.
  - unfold process_qpbt_clear_chart.
    destruct (msgbox_reply e); reflexivity.
  - destruct (stop_running_frame _ _ Hs) as (Hst & _). exact Hst.
  - exact (Hdaq ok p1 Hd (Hm eq_refl)).
  - destruct (stop_running_frame _ _ Hs) as (Hst & _).
    change (state p2 = state p). rewrite Hst.
    exact (Hdaq ok p1 Hd (Hm eq_refl)).
Qed.

(** X15: the Reading starts as five not-a-numbers and stays so until the
    first successful poll: as long as every poll of a run is malformed,
    no click, time-out, failed poll or termination routine gives any of
    its fields a value. *)
Theorem reading_is_nan_until_first_success
  (evs : list (Event * Env)) (p : Program) :
  run evs main_init = Some p ->
  Forall (fun x => fst x = ev_DAQ_timer -> malformed (serial_reply (snd x)))
    evs ->
  state p = mkState nan nan nan nan nan.
Proof.
  change (mkState nan nan nan nan nan) with (state main_init).
  generalize main_init. intros p0. revert p0.
  induction evs as [|[ev e] evs IH]; intros p0 Hr Hall; simpl in Hr.
  - injection Hr as <-. reflexivity.
  - inversion Hall as [|x l Hx Hrest]; subst. simpl in Hx.
    destruct (handle ev e p0) as [p1|] eqn:Hh; simpl in Hr; [|discriminate Hr].
    rewrite (IH p1 Hr Hrest).
    exact (transition_state e p0 ev p1 (handle_transition ev e p0 p1 Hh) Hx).
Qed.

Lemma reading_is_nan_until_first_success_witness :
  let evs := [(ev_click_record, env_click Yes); (ev_DAQ_timer, env_failed);
              (ev_timer_chart, env_click Yes); (ev_DAQ_timer, env_failed)] in
  run evs main_init = Some (default main_init (run evs main_init))
  /\ Forall (fun x => fst x = ev_DAQ_timer -> malformed (serial_reply (snd x)))
       evs
  /\ state (default main_init (run evs main_init))
     = mkState nan nan nan nan nan
  /\ drop 3 (readouts (window (default main_init (run evs main_init))))
     = ["nan"; "nan"; "nan"; "nan"; "nan"].
Proof.
  intros evs.
  assert (Hr : run evs main_init = Some (default main_init (run evs main_init)))
    by (vm_compute; reflexivity).
  assert (Hall : Forall (fun x => fst x = ev_DAQ_timer ->
                                  malformed (serial_reply (snd x))) evs).
  { repeat (apply List.Forall_cons;
            [simpl; intros H; first [discriminate H | left; reflexivity]|]).
    apply List.Forall_nil. }
  split; [exact Hr|]. split; [exact Hall|].
  split; [exact (reading_is_nan_until_first_success evs _ Hr Hall)|].
  vm_compute. reflexivity.
Defined.

(** *** Quitting *)

(** X16: when the application is about to quit, the routine halts the
    worker, closes the log file if one is being recorded (one close, the
    text kept) and performs no file operation otherwise, stops the chart
    timer and then releases the device link; it sends nothing to the
    device and leaves the Reading, the window and its title as they
    are. *)
Theorem about_to_quit_effects (p : Program) :
  logger_wf (file_logger p) ->
  exists p',
    about_to_quit p = Some p'
    /\ stopped p'
    /\ timer_chart_active p' = false
    /\ is_alive (ard p') = false
    /\ sent (ard p') = sent (ard p)
    /\ files (disk p') = files (disk p)
    /\ ops (disk p')
       = (ops (disk p)
          ++ match open_file (file_logger p) with
             | Some fn => [op_close fn]
             | None => []
             end)%list
    /\ state p' = state p
    /\ window p' = window p.
Proof.
  intros Hwf.
  unfold about_to_quit, stop_running, close_log, open_file, logger_wf in *.
  destruct p as [s w l q ar tc dk em]. destruct l as [st sp rec t0 fl].
  simpl in *.
  destruct rec; [destruct (Hwf eq_refl) as [fn ->]|]; simpl;
    eexists; (split; [reflexivity|]);
    simpl; rewrite ?app_nil_r; repeat split.
Qed.

Lemma about_to_quit_effects_witness :
  logger_wf (file_logger recording_example)
  /\ exists p',
       about_to_quit recording_example = Some p'
       /\ stopped p'
       /\ is_alive (ard p') = false
       /\ ops (disk p')
          = (ops (disk recording_example)
             ++ [op_close "261103_100000.txt"])%list.
Proof.
  assert (Hwf : logger_wf (file_logger recording_example)).
  { intros _. exists "261103_100000.txt". vm_compute. reflexivity. }
  split; [exact Hwf|].
  destruct (about_to_quit_effects recording_example Hwf)
    as (p' & Hq & Hs & _ & Ha & _ & _ & Ho & _).
  exists p'. split; [exact Hq|]. split; [exact Hs|].
  split; [exact Ha | exact Ho].
Defined.
